(** * BotCity Maestro SDK (Python): a shallow embedding of [botcity/maestro/sdk.py]

    The client object, its token decorator and its twelve endpoint methods
    are embedded as computations in a state-and-exception monad over a
    [World]: the [BotMaestroSDK] instance together with the list of HTTP
    requests put on the wire so far.  A Python [raise] keeps every
    attribute assignment made before it, so the monad returns the world
    next to the outcome also when the outcome is an exception.

    The collaborators the module imports and does not define (the portal
    behind [requests] and the check [requests] makes of a request before
    sending it, the [json] library, [str()] of a non-string value,
    [model.ServerMessage.from_json], [model.AutomationTask.from_json] and
    the file system behind [open]) are the fields of an [Env]; every
    statement is proved for an arbitrary [Env].  A failure of the transport
    after a request has gone out (a lost connection, a timeout) is not
    modelled.  [Demo] gives one concrete
    [Env], with a small JSON reader, on which the statements are run.

    The specification names error kinds abstractly; the module raises
    built-in exceptions.  The correspondence used throughout is
      - ConfigurationError  : [ValueError] with ['Server is required.'],
                              ['Login is required.'] or ['Key is required.'];
      - PreconditionError   : [RuntimeError] with ['Access Token not
                              available. Make sure to invoke login first.'];
      - AuthenticationError : [ValueError] with ['Error during login. Server
                              returned %d. %s'] filled in;
      - RequestError        : [ValueError] with ['Error during <operation>.
                              Server returned %d. %s'] filled in. *)

From Stdlib Require Import String Ascii ZArith List Lia Bool DecimalString.
From Stdlib Require Import Strings.Byte.
Import ListNotations.
Local Open Scope string_scope.
Local Open Scope Z_scope.

(** ** Python strings *)

Module PyStr.

(** The double quote, which a literal of this file cannot hold. *)
Definition dq : ascii := "034"%char.

(** [s] between double quotes. *)
Definition quoted (s : string) : string :=
  String dq (s ++ String dq "").

(** [len(s)] *)
Definition len (s : string) : Z := Z.of_nat (String.length s).

(** [bool(s)] for an [Optional[str]]: [None] and [''] are false. *)
Definition truthy (s : option string) : bool :=
  match s with
  | None => false
  | Some "" => false
  | Some _ => true
  end.

(** [a or b] on [Optional[str]] operands. *)
Definition py_or (a b : option string) : option string :=
  if truthy a then a else b.

Fixpoint take (n : nat) (s : string) : string :=
  match n, s with
  | S k, String c t => String c (take k t)
  | _, _ => ""
  end.

Fixpoint drop (n : nat) (s : string) : string :=
  match n, s with
  | S k, String _ t => drop k t
  | _, _ => s
  end.

(** A slice bound as Python resolves it against a length: a negative
    bound counts from the end, and both ends are clamped. *)
Definition clamp (n i : Z) : Z :=
  if i <? 0 then Z.max 0 (i + n) else Z.min i n.

(** [s[lo:hi]]; an omitted bound is [None]. *)
Definition slice (s : string) (lo hi : option Z) : string :=
  let n := len s in
  let l := match lo with Some i => clamp n i | None => 0 end in
  let h := match hi with Some i => clamp n i | None => n end in
  drop (Z.to_nat l) (take (Z.to_nat h) s).

(** [s[i]]; [None] stands for [IndexError]. *)
Definition getitem (s : string) (i : Z) : option ascii :=
  let n := len s in
  let j := if i <? 0 then i + n else i in
  if (j <? 0) || (n <=? j) then None else String.get (Z.to_nat j) s.

(** [s.rfind(c)] for a one-character [c]: the highest index holding [c],
    or [-1]. *)
Fixpoint rfind (c : ascii) (s : string) : Z :=
  match s with
  | "" => -1
  | String a t =>
      let r := rfind c t in
      if 0 <=? r then r + 1 else if Ascii.eqb a c then 0 else -1
  end.

(** [c in s] for a one-character [c]. *)
Fixpoint contains (c : ascii) (s : string) : bool :=
  match s with
  | "" => false
  | String a t => Ascii.eqb a c || contains c t
  end.

(** [sep.join(parts)] *)
Fixpoint join (sep : string) (parts : list string) : string :=
  match parts with
  | [] => ""
  | [p] => p
  | p :: rest => p ++ sep ++ join sep rest
  end.

(** ['%d' % z] *)
Definition percent_d (z : Z) : string := NilZero.string_of_int (Z.to_int z).

(** [str(b).lower()] for a [bool]. *)
Definition str_lower_bool (b : bool) : string := if b then "true" else "false".

End PyStr.
Import PyStr.

(** ** Python values, dictionaries and exceptions *)

(** The values that travel through the client: what [json.loads] can
    produce, and what a caller puts in a request field.  A float keeps its
    literal only. *)
#[warnings="-register-all"]
Inductive pyval : Type :=
| PNone
| PBool (b : bool)
| PInt (z : Z)
| PFloat (literal : string)
| PStr (s : string)
| PList (items : list pyval)
| PDict (entries : list (string * pyval)).

(** A [dict] with string keys, in insertion order. *)
Definition dict : Type := list (string * pyval).

(** [d.get(k)] as an option. *)
Fixpoint lookup (k : string) (d : dict) : option pyval :=
  match d with
  | [] => None
  | (k', v) :: rest => if String.eqb k' k then Some v else lookup k rest
  end.

Inductive exn : Type :=
| ValueError (args : list pyval)
| JSONDecodeError                   (* a subclass of ValueError *)
| MissingSchema                     (* of requests; a subclass of ValueError *)
| InvalidSchema                     (* of requests; a subclass of ValueError *)
| RuntimeError (msg : string)
| NotImplementedError (msg : string)
| KeyError (key : string)
| TypeError
| AttributeError
| OSError.

(** [isinstance(e, ValueError)] *)
Definition is_ValueError (e : exn) : bool :=
  match e with
  | ValueError _ | JSONDecodeError | MissingSchema | InvalidSchema => true
  | _ => false
  end.

Inductive Result (A : Type) : Type :=
| Return (a : A)
| Raise (e : exn).
Arguments Return {A} a.
Arguments Raise {A} e.

(** ** The wire *)

Inductive Verb : Type := GET | POST.

(** One part of a multipart body, as the tuple [requests] takes:
    [(filename, fileobj, content_type, headers)]. *)
Record FilePart : Type := {
  part_filename : string;
  part_body : list byte;
  part_content_type : string;
  part_headers : list (string * string)
}.

(** A call of [requests.get(url, params=...)] or
    [requests.post(url, data=..., files=...)]. *)
Record Request : Type := {
  verb : Verb;
  url : string;
  params : dict;
  data : dict;
  files : list (string * FilePart)
}.

(** What the client reads of a [requests.Response]. *)
Record Response : Type := {
  status_code : Z;
  text : string;
  content : list byte;
  headers : string -> option string
}.

(** ** The client object and the world *)

Record BotMaestroSDK : Type := {
  _server : option string;
  _login : option string;
  _key : option string;
  _access_token : pyval
}.

Record World : Type := {
  self : BotMaestroSDK;
  wire : list Request
}.

(** ** The monad *)

Definition M (A : Type) : Type := World -> Result A * World.

Definition ret {A} (a : A) : M A := fun w => (Return a, w).

Definition raise {A} (e : exn) : M A := fun w => (Raise e, w).

Definition bind {A B} (m : M A) (k : A -> M B) : M B :=
  fun w =>
    match m w with
    | (Return a, w') => k a w'
    | (Raise e, w') => (Raise e, w')
    end.

Declare Scope py_scope.
Delimit Scope py_scope with py.
Notation "x <- m ;; k" := (bind m (fun x => k))
  (at level 61, m at next level, right associativity) : py_scope.
Notation "m ;; k" := (bind m (fun _ => k))
  (at level 61, right associativity) : py_scope.
Local Open Scope py_scope.

(** [try: body except ValueError: handler] *)
Definition try_except_ValueError {A} (body handler : M A) : M A :=
  fun w =>
    match body w with
    | (Raise e, w') => if is_ValueError e then handler w' else (Raise e, w')
    | r => r
    end.

Definition get_self : M BotMaestroSDK := fun w => (Return (self w), w).

Definition put_self (o : BotMaestroSDK) : M unit :=
  fun w => (Return tt, {| self := o; wire := wire w |}).

(** Lifting an option whose [None] is an exception. *)
Definition or_raise {A} (e : exn) (o : option A) : M A :=
  match o with
  | Some a => ret a
  | None => raise e
  end.

Definition of_result {A} (r : Result A) : M A := fun w => (r, w).

(** [[f(x) for x in xs]] for an [f] that may raise. *)
Fixpoint mapM {A B} (f : A -> M B) (xs : list A) : M (list B) :=
  match xs with
  | [] => ret []
  | x :: rest => y <- f x ;; ys <- mapM f rest ;; ret (y :: ys)
  end.

(** ** Operations on Python values *)

(** [v is None] *)
Definition is_None (v : pyval) : bool :=
  match v with
  | PNone => true
  | _ => false
  end.

(** An [Optional[str]] as a value. *)
Definition of_optional (s : option string) : pyval :=
  match s with
  | Some x => PStr x
  | None => PNone
  end.

(** [f'{s}'] for an [Optional[str]]. *)
Definition fstring (s : option string) : string :=
  match s with
  | Some x => x
  | None => "None"
  end.

(** [v.get(k, default)]: only a [dict] has the method. *)
Definition py_get (v : pyval) (k : string) (default : pyval) : M pyval :=
  match v with
  | PDict d => ret (match lookup k d with Some x => x | None => default end)
  | _ => raise AttributeError
  end.

(** [v[k]] for a string [k]. *)
Definition py_subscript (v : pyval) (k : string) : M pyval :=
  match v with
  | PDict d => or_raise (KeyError k) (lookup k d)
  | _ => raise TypeError
  end.

Fixpoint chars (s : string) : list pyval :=
  match s with
  | "" => []
  | String c t => PStr (String c "") :: chars t
  end.

(** [for entry in v]: the values a loop over [v] visits. *)
Definition py_iter (v : pyval) : M (list pyval) :=
  match v with
  | PList items => ret items
  | PDict d => ret (map (fun kv => PStr (fst kv)) d)
  | PStr s => ret (chars s)
  | _ => raise TypeError
  end.

(** Modelled from the spec: [model.Column], which is not among the
    sources, is the pair of a name and a label of one field of a log
    schema. *)
Record Column : Type := {
  col_name : string;
  col_label : string
}.

(** [dataclasses.asdict(c)] for a [Column]. *)
Definition asdict (c : Column) : pyval :=
  PDict [("name", PStr (col_name c)); ("label", PStr (col_label c))].

(** ** The collaborators *)

Record Env : Type := {
  (** the portal: its reply to a request, given the requests before it *)
  portal : list Request -> Request -> Response;
  (** the exception [requests.get] or [requests.post] raises instead of
      sending a request, as [MissingSchema] for an address without
      [http://]; [None] when the request goes out *)
  refuses : Request -> option exn;
  (** [json.loads] on a [str], also behind [Response.json()]; [None] is
      [JSONDecodeError] *)
  json_loads : string -> option pyval;
  (** [json.dumps]: the text, or the exception it raises, as [TypeError]
      for a value that cannot be serialised *)
  json_dumps : pyval -> Result string;
  (** [str(v)] for a [v] that is not a [str] *)
  py_repr : pyval -> string;
  (** the result types of [model], which is not among the sources *)
  ServerMessage : Type;
  AutomationTask : Type;
  ServerMessage_from_json : string -> Result ServerMessage;
  AutomationTask_from_json : pyval -> Result AutomationTask;
  (** [open(path, 'rb')]: the bytes of the file; [None] is [OSError] *)
  open_rb : string -> option (list byte)
}.

(** ** The module *)

Section SDK.

Variable E : Env.

(** ['%s' % v] *)
Definition percent_s (v : pyval) : string :=
  match v with
  | PStr s => s
  | _ => py_repr E v
  end.

(** Handing a request to [requests]: it is refused with an exception and
    nothing is sent, or it goes on the wire and the portal's reply comes
    back. *)
Definition send (r : Request) : M Response :=
  fun w =>
    match refuses E r with
    | Some e => (Raise e, w)
    | None => (Return (portal E (wire w) r),
               {| self := self w; wire := wire w ++ [r] |})
    end.

(** [requests.post(url, data=data, files=files)] *)
Definition requests_post (url : string) (data : dict)
    (files : list (string * FilePart)) : M Response :=
  send {| verb := POST; url := url; params := []; data := data; files := files |}.

(** [requests.get(url, params=params)] *)
Definition requests_get (url : string) (params : dict) : M Response :=
  send {| verb := GET; url := url; params := params; data := []; files := [] |}.

(** [req.json()] *)
Definition req_json (req : Response) : M pyval :=
  or_raise JSONDecodeError (json_loads E (text req)).

(** [json.loads(v)]: a value that is not a [str] is a [TypeError]. *)
Definition py_json_loads (v : pyval) : M pyval :=
  match v with
  | PStr s => or_raise JSONDecodeError (json_loads E s)
  | _ => raise TypeError
  end.

(** [BotMaestroSDK.server], the getter. *)
Definition server : M (option string) :=
  o <- get_self ;; ret (_server o).

(** [BotMaestroSDK.server], the setter. *)
Definition server_setter (server : option string) : M unit :=
  let server :=
    match server with
    | Some s =>
        if truthy server &&
           match getitem s (-1) with Some c => Ascii.eqb c "/" | None => false end
        then Some (slice s None (Some (-1)))
        else server
    | None => server
    end in
  o <- get_self ;;
  put_self {| _server := server; _login := _login o; _key := _key o;
              _access_token := _access_token o |}.

(** [BotMaestroSDK.access_token], the getter. *)
Definition access_token : M pyval :=
  o <- get_self ;; ret (_access_token o).

(** [BotMaestroSDK.access_token], the setter. *)
Definition access_token_setter (token : pyval) : M unit :=
  o <- get_self ;;
  put_self {| _server := _server o; _login := _login o; _key := _key o;
              _access_token := token |}.

(** [BotMaestroSDK.__init__] *)
Definition __init__ (server login key : option string) : M unit :=
  put_self {| _server := None; _login := login; _key := key;
              _access_token := PNone |} ;;
  server_setter server.

(** [ensure_access_token].  The wrapped function is a method of the class,
    so [isinstance(obj, BotMaestroSDK)] holds and the [NotImplementedError]
    branch is not taken. *)
Definition ensure_access_token {A} (func : M A) : M A :=
  token <- access_token ;;
  (if is_None token
   then raise (RuntimeError
                 "Access Token not available. Make sure to invoke login first.")
   else ret tt) ;;
  func.

(** [BotMaestroSDK.logoff] *)
Definition logoff : M unit :=
  access_token_setter PNone.

(** Lines 91-94 of [login]: the arguments override the stored
    credentials. *)
Definition login_overrides (server login key : option string) : M unit :=
  (if truthy server then server_setter server else ret tt) ;;
  o <- get_self ;;
  put_self {| _server := _server o; _login := py_or login (_login o);
              _key := _key o; _access_token := _access_token o |} ;;
  o <- get_self ;;
  put_self {| _server := _server o; _login := _login o;
              _key := py_or key (_key o); _access_token := _access_token o |}.

(** [BotMaestroSDK.login] *)
Definition login (server login key : option string) : M unit :=
  login_overrides server login key ;;
  o <- get_self ;;
  (if negb (truthy (_server o))
   then raise (ValueError [PStr "Server is required."]) else ret tt) ;;
  (if negb (truthy (_login o))
   then raise (ValueError [PStr "Login is required."]) else ret tt) ;;
  (if negb (truthy (_key o))
   then raise (ValueError [PStr "Key is required."]) else ret tt) ;;
  logoff ;;
  o <- get_self ;;
  let url := fstring (_server o) ++ "/app/api/login" in
  let data := [("userLogin", of_optional (_login o));
               ("key", of_optional (_key o))] in
  req <- requests_post url data [] ;;
  if status_code req =? 200 then
    j <- req_json req ;;
    token <- py_subscript j "access_token" ;;
    access_token_setter token
  else
    raise (ValueError [PStr ("Error during login. Server returned "
                             ++ percent_d (status_code req) ++ ". "
                             ++ text req)]).

(** The block that ten methods repeat in their [else] branch, up to the
    name of the operation:
    [try: message = 'Error during <what>. Server returned %d. %s' %
            (req.status_code, req.json().get('message', ''))
     except ValueError: message = '... %d. %s' % (req.status_code, req.text)
     raise ValueError(message)] *)
Definition raise_request_error {A} (what : string) (req : Response) : M A :=
  message <-
    try_except_ValueError
      (j <- req_json req ;;
       m <- py_get j "message" (PStr "") ;;
       ret ("Error during " ++ what ++ ". Server returned "
            ++ percent_d (status_code req) ++ ". " ++ percent_s m))
      (ret ("Error during " ++ what ++ ". Server returned "
            ++ percent_d (status_code req) ++ ". " ++ text req)) ;;
  raise (ValueError [PStr message]).

(** [BotMaestroSDK.alert] *)
Definition alert (task_id title message : string) (alert_type : pyval)
    : M (ServerMessage E) :=
  ensure_access_token (
    o <- get_self ;;
    let url := fstring (_server o) ++ "/app/api/alert/send" in
    token <- access_token ;;
    let data := [("taskId", PStr task_id); ("title", PStr title);
                 ("message", PStr message); ("type", alert_type);
                 ("access_token", token)] in
    req <- requests_post url data [] ;;
    if status_code req =? 200 then
      of_result (ServerMessage_from_json E (text req))
    else
      raise (ValueError [PStr "Error during alert. %s"; PStr (text req)])).

(** [BotMaestroSDK.message] *)
Definition message (email users : list string) (subject body : string)
    (msg_type : pyval) (group : string) : M (ServerMessage E) :=
  ensure_access_token (
    o <- get_self ;;
    let url := fstring (_server o) ++ "/app/api/message/send" in
    let email_str := join "," email in
    let users_str := join "," users in
    token <- access_token ;;
    let data := [("email", PStr email_str); ("users", PStr users_str);
                 ("subject", PStr subject); ("body", PStr body);
                 ("type", msg_type); ("group", PStr group);
                 ("access_token", token)] in
    req <- requests_post url data [] ;;
    if status_code req =? 200 then
      of_result (ServerMessage_from_json E (text req))
    else
      j <- req_json req ;;
      m <- py_get j "message" (PStr "") ;;
      raise (ValueError [PStr ("Error during message. Server returned "
                               ++ percent_d (status_code req) ++ ". "
                               ++ percent_s m)])).

(** [BotMaestroSDK.create_task] *)
Definition create_task (activity_label : string) (parameters : dict)
    (test : bool) : M (AutomationTask E) :=
  ensure_access_token (
    o <- get_self ;;
    let url := fstring (_server o) ++ "/app/api/task/create" in
    jsonParams <- of_result (json_dumps E (PDict parameters)) ;;
    token <- access_token ;;
    let data := [("activityLabel", PStr activity_label);
                 ("jsonParams", PStr jsonParams);
                 ("taskForTest", PStr (str_lower_bool test));
                 ("access_token", token)] in
    req <- requests_post url data [] ;;
    if status_code req =? 200 then
      j <- req_json req ;;
      payload <- py_get j "payload" PNone ;;
      of_result (AutomationTask_from_json E payload)
    else
      raise_request_error "task create" req).

(** [BotMaestroSDK.finish_task] *)
Definition finish_task (task_id : string) (status : pyval) (message : string)
    : M (ServerMessage E) :=
  ensure_access_token (
    o <- get_self ;;
    let url := fstring (_server o) ++ "/app/api/task/finish" in
    let processed_items := "1" in
    token <- access_token ;;
    let data := [("taskId", PStr task_id); ("finishStatus", status);
                 ("finishMessage", PStr message);
                 ("processedItems", PStr processed_items);
                 ("access_token", token)] in
    req <- requests_post url data [] ;;
    if status_code req =? 200 then
      of_result (ServerMessage_from_json E (text req))
    else
      raise_request_error "task finish" req).

(** [BotMaestroSDK.restart_task] *)
Definition restart_task (task_id : string) : M (ServerMessage E) :=
  ensure_access_token (
    o <- get_self ;;
    let url := fstring (_server o) ++ "/app/api/task/restart" in
    token <- access_token ;;
    let data := [("id", PStr task_id); ("access_token", token)] in
    req <- requests_post url data [] ;;
    if status_code req =? 200 then
      of_result (ServerMessage_from_json E (text req))
    else
      raise_request_error "task restart" req).

(** [BotMaestroSDK.get_task] *)
Definition get_task (task_id : string) : M (AutomationTask E) :=
  ensure_access_token (
    o <- get_self ;;
    let url := fstring (_server o) ++ "/app/api/task/get" in
    token <- access_token ;;
    let data := [("id", PStr task_id); ("access_token", token)] in
    req <- requests_get url data ;;
    if status_code req =? 200 then
      let payload := text req in
      of_result (AutomationTask_from_json E (PStr payload))
    else
      raise_request_error "task get" req).

(** [BotMaestroSDK.new_log] *)
Definition new_log (activity_label : string) (columns : list Column)
    : M (ServerMessage E) :=
  ensure_access_token (
    o <- get_self ;;
    let url := fstring (_server o) ++ "/app/api/log/create" in
    let cols := map asdict columns in
    dumped_cols <- of_result (json_dumps E (PList cols)) ;;
    token <- access_token ;;
    let data := [("activityLabel", PStr activity_label);
                 ("columns", PStr dumped_cols);
                 ("access_token", token)] in
    req <- requests_post url data [] ;;
    if status_code req =? 200 then
      of_result (ServerMessage_from_json E (text req))
    else
      raise_request_error "new log" req).

(** [BotMaestroSDK.new_log_entry] *)
Definition new_log_entry (activity_label : string) (values : dict)
    : M (ServerMessage E) :=
  ensure_access_token (
    o <- get_self ;;
    let url := fstring (_server o) ++ "/app/api/newLogEntry" in
    dumped_values <- of_result (json_dumps E (PDict values)) ;;
    token <- access_token ;;
    let data := [("logName", PStr activity_label);
                 ("columns", PStr dumped_values);
                 ("access_token", token)] in
    req <- requests_post url data [] ;;
    if status_code req =? 200 then
      of_result (ServerMessage_from_json E (text req))
    else
      raise_request_error "new log entry" req).

(** [BotMaestroSDK.get_log] *)
Definition get_log (activity_label : string) (date : option string)
    : M (list pyval) :=
  ensure_access_token (
    o <- get_self ;;
    let url := fstring (_server o) ++ "/app/api/log/read" in
    token <- access_token ;;
    let data := [("activityLabel", PStr activity_label);
                 ("date", of_optional date); ("access_token", token)] in
    req <- requests_get url data ;;
    if status_code req =? 200 then
      j <- req_json req ;;
      m <- py_subscript j "message" ;;
      parsed <- py_json_loads m ;;
      entries <- py_iter parsed ;;
      mapM (fun entry => py_get entry "columns" PNone) entries
    else
      raise_request_error "log read" req).

(** [BotMaestroSDK.delete_log] *)
Definition delete_log (activity_label : string) : M (ServerMessage E) :=
  ensure_access_token (
    o <- get_self ;;
    let url := fstring (_server o) ++ "/app/api/log/delete" in
    token <- access_token ;;
    let data := [("activityLabel", PStr activity_label);
                 ("access_token", token)] in
    req <- requests_post url data [] ;;
    if status_code req =? 200 then
      of_result (ServerMessage_from_json E (text req))
    else
      raise_request_error "log delete" req).

(** [BotMaestroSDK.post_artifact] *)
Definition post_artifact (task_id : Z) (artifact_name filepath : string)
    : M (ServerMessage E) :=
  ensure_access_token (
    o <- get_self ;;
    let url := fstring (_server o) ++ "/app/api/newArtifact" in
    token <- access_token ;;
    let data := [("taskId", PInt task_id); ("name", PStr artifact_name);
                 ("access_token", token)] in
    opened <- or_raise OSError (open_rb E filepath) ;;
    let files := [("body", {| part_filename := artifact_name;
                              part_body := opened;
                              part_content_type := "application/octet-stream";
                              part_headers := [("Expires", "0")] |})] in
    req <- requests_post url data files ;;
    if status_code req =? 200 then
      of_result (ServerMessage_from_json E (text req))
    else
      raise_request_error "artifact posting" req).

(** Lines 464-465 of [get_artifact]: the file name out of the
    [Content-Disposition] value. *)
Definition artifact_filename (h_content : string) : string :=
  let filename := slice h_content (Some (rfind "=" h_content + 2)) (Some (-1)) in
  slice filename None (Some (rfind "_" filename))
  ++ slice filename (Some (rfind "." filename)) None.

(** [BotMaestroSDK.get_artifact] *)
Definition get_artifact (artifact_id : Z) : M (string * list byte) :=
  ensure_access_token (
    o <- get_self ;;
    let url := fstring (_server o) ++ "/app/api/artifact/get" in
    token <- access_token ;;
    let data := [("id", PInt artifact_id); ("access_token", token)] in
    req <- requests_get url data ;;
    if status_code req =? 200 then
      h_content <- or_raise (KeyError "content-disposition")
                     (headers req "Content-Disposition") ;;
      let filename := artifact_filename h_content in
      ret (filename, content req)
    else
      raise_request_error "artifact get" req).

(** ** The authenticated operations as data *)

(** A call of one of the twelve decorated methods, with its arguments. *)
Inductive call : Type :=
| Alert (task_id title message : string) (alert_type : pyval)
| Message (email users : list string) (subject body : string)
    (msg_type : pyval) (group : string)
| CreateTask (activity_label : string) (parameters : dict) (test : bool)
| FinishTask (task_id : string) (status : pyval) (message : string)
| RestartTask (task_id : string)
| GetTask (task_id : string)
| NewLog (activity_label : string) (columns : list Column)
| NewLogEntry (activity_label : string) (values : dict)
| GetLog (activity_label : string) (date : option string)
| DeleteLog (activity_label : string)
| PostArtifact (task_id : Z) (artifact_name filepath : string)
| GetArtifact (artifact_id : Z).

(** What a call returns. *)
Inductive value : Type :=
| VServerMessage (m : ServerMessage E)
| VTask (t : AutomationTask E)
| VLog (rows : list pyval)
| VArtifact (filename : string) (body : list byte).

Definition fmap {A B} (f : A -> B) (m : M A) : M B :=
  a <- m ;; ret (f a).

Definition invoke (c : call) : M value :=
  match c with
  | Alert task_id title msg alert_type =>
      fmap VServerMessage (alert task_id title msg alert_type)
  | Message email users subject body msg_type group =>
      fmap VServerMessage (message email users subject body msg_type group)
  | CreateTask activity_label parameters test =>
      fmap VTask (create_task activity_label parameters test)
  | FinishTask task_id status msg =>
      fmap VServerMessage (finish_task task_id status msg)
  | RestartTask task_id => fmap VServerMessage (restart_task task_id)
  | GetTask task_id => fmap VTask (get_task task_id)
  | NewLog activity_label columns =>
      fmap VServerMessage (new_log activity_label columns)
  | NewLogEntry activity_label values =>
      fmap VServerMessage (new_log_entry activity_label values)
  | GetLog activity_label date => fmap VLog (get_log activity_label date)
  | DeleteLog activity_label => fmap VServerMessage (delete_log activity_label)
  | PostArtifact task_id artifact_name filepath =>
      fmap VServerMessage (post_artifact task_id artifact_name filepath)
  | GetArtifact artifact_id =>
      fmap (fun r => VArtifact (fst r) (snd r)) (get_artifact artifact_id)
  end.

(** A caller that makes the calls one after the other and goes on after
    an exception: the world after the last one. *)
Fixpoint run_calls (cs : list call) (w : World) : World :=
  match cs with
  | [] => w
  | c :: rest => run_calls rest (snd (invoke c w))
  end.

(** The verb of each operation. *)
Definition verb_of (c : call) : Verb :=
  match c with
  | GetTask _ | GetLog _ _ | GetArtifact _ => GET
  | _ => POST
  end.

End SDK.

Arguments VServerMessage {E} m.
Arguments VTask {E} t.
Arguments VLog {E} rows.
Arguments VArtifact {E} filename body.

(** Where a request carries its fields: the form for a [POST], the query
    for a [GET]. *)
Definition fields (r : Request) : dict :=
  match verb r with
  | POST => data r
  | GET => params r
  end.

(** The request carries [access_token=token] among its fields. *)
Definition carries_token (token : pyval) (r : Request) : Prop :=
  lookup "access_token" (fields r) = Some token.

(** The path each operation appends to the server address. *)
Definition path_of (c : call) : string :=
  match c with
  | Alert _ _ _ _ => "/app/api/alert/send"
  | Message _ _ _ _ _ _ => "/app/api/message/send"
  | CreateTask _ _ _ => "/app/api/task/create"
  | FinishTask _ _ _ => "/app/api/task/finish"
  | RestartTask _ => "/app/api/task/restart"
  | GetTask _ => "/app/api/task/get"
  | NewLog _ _ => "/app/api/log/create"
  | NewLogEntry _ _ => "/app/api/newLogEntry"
  | GetLog _ _ => "/app/api/log/read"
  | DeleteLog _ => "/app/api/log/delete"
  | PostArtifact _ _ _ => "/app/api/newArtifact"
  | GetArtifact _ => "/app/api/artifact/get"
  end.

(** The name by which an operation calls itself in
    ['Error during <name>. Server returned %d. %s']; [alert] has a message
    of another shape. *)
Definition what_of (c : call) : option string :=
  match c with
  | Alert _ _ _ _ => None
  | Message _ _ _ _ _ _ => Some "message"
  | CreateTask _ _ _ => Some "task create"
  | FinishTask _ _ _ => Some "task finish"
  | RestartTask _ => Some "task restart"
  | GetTask _ => Some "task get"
  | NewLog _ _ => Some "new log"
  | NewLogEntry _ _ => Some "new log entry"
  | GetLog _ _ => Some "log read"
  | DeleteLog _ => Some "log delete"
  | PostArtifact _ _ _ => Some "artifact posting"
  | GetArtifact _ => Some "artifact get"
  end.

(** The operations whose [else] branch has the [except ValueError]
    clause: all but [alert] and [message]. *)
Definition has_fallback (c : call) : bool :=
  match c with
  | Alert _ _ _ _ | Message _ _ _ _ _ _ => false
  | _ => true
  end.

(** The value an operation passes to [json.dumps] while it builds its
    request, for the three that do. *)
Definition dumped (c : call) : option pyval :=
  match c with
  | CreateTask _ parameters _ => Some (PDict parameters)
  | NewLog _ columns => Some (PList (map asdict columns))
  | NewLogEntry _ values => Some (PDict values)
  | _ => None
  end.

(** The ways a call [c], made in the world [w] with the token [token], can
    end in the result [res] and the world [w1].  The client is as it was,
    and one of four things happened.  The call built one request, with the
    operation's verb, the stored server followed by the operation's path as
    address and [access_token=token] among its fields, and [requests] sent
    it; or it built that request and [requests] refused it with an
    exception, which the call raised; or it is [post_artifact] and raised
    [OSError] on a file that did not open; or it raised the exception of
    [json.dumps] on the value it had to serialise.  In the last three
    nothing went on the wire. *)
Definition call_outcome (E : Env) (token : pyval) (c : call) (w : World)
    (res : Result (value E)) (w1 : World) : Prop :=
  self w1 = self w
  /\ ((exists r, refuses E r = None
                 /\ wire w1 = (wire w ++ [r])%list
                 /\ verb r = verb_of c
                 /\ url r = fstring (_server (self w)) ++ path_of c
                 /\ carries_token token r)
      \/ (exists r e, refuses E r = Some e
                      /\ verb r = verb_of c
                      /\ url r = fstring (_server (self w)) ++ path_of c
                      /\ carries_token token r
                      /\ res = Raise e /\ wire w1 = wire w)
      \/ (exists task_id artifact_name filepath,
             c = PostArtifact task_id artifact_name filepath
             /\ open_rb E filepath = None
             /\ res = Raise OSError /\ wire w1 = wire w)
      \/ (exists v e, dumped c = Some v /\ json_dumps E v = Raise e
                      /\ res = Raise e /\ wire w1 = wire w)).

(** The operations declared to return a [ServerMessage]. *)
Definition returns_server_message (c : call) : bool :=
  match c with
  | CreateTask _ _ _ | GetTask _ | GetLog _ _ | GetArtifact _ => false
  | _ => true
  end.

(** [isinstance(v, dict)] *)
Definition is_dict (v : pyval) : bool :=
  match v with
  | PDict _ => true
  | _ => false
  end.

(** [entry.get('columns')] on an entry that has the method. *)
Definition columns_of (entry : pyval) : pyval :=
  match entry with
  | PDict d => match lookup "columns" d with Some c => c | None => PNone end
  | _ => PNone
  end.

(** ** A concrete environment *)

(** A reader for the JSON the portal sends in the runs below: objects,
    arrays, strings with the one-character escapes, integers and the three
    literals. *)
Module Json.

Definition is_ws (c : ascii) : bool :=
  Ascii.eqb c " " || Ascii.eqb c "009" || Ascii.eqb c "010" || Ascii.eqb c "013".

Fixpoint skip_ws (s : string) : string :=
  match s with
  | String c t => if is_ws c then skip_ws t else s
  | "" => s
  end.

Definition digit (c : ascii) : option Z :=
  let n := Z.of_nat (nat_of_ascii c) in
  if (48 <=? n) && (n <=? 57) then Some (n - 48) else None.

Fixpoint read_digits (acc : Z) (s : string) : Z * string :=
  match s with
  | String c t =>
      match digit c with
      | Some d => read_digits (acc * 10 + d) t
      | None => (acc, s)
      end
  | "" => (acc, s)
  end.

Definition unescape (c : ascii) : option ascii :=
  if Ascii.eqb c dq then Some dq
  else if Ascii.eqb c "\" then Some "\"%char
  else if Ascii.eqb c "/" then Some "/"%char
  else if Ascii.eqb c "n" then Some "010"%char
  else if Ascii.eqb c "t" then Some "009"%char
  else if Ascii.eqb c "r" then Some "013"%char
  else None.

(** The characters of a string after its opening quote, and the rest. *)
Fixpoint read_string (s : string) : option (string * string) :=
  match s with
  | "" => None
  | String c t =>
      if Ascii.eqb c dq then Some ("", t)
      else if Ascii.eqb c "\" then
        match t with
        | String e t' =>
            match unescape e, read_string t' with
            | Some x, Some (r, rest) => Some (String x r, rest)
            | _, _ => None
            end
        | "" => None
        end
      else
        match read_string t with
        | Some (r, rest) => Some (String c r, rest)
        | None => None
        end
  end.

(** A later duplicate of a key replaces the value and keeps the place. *)
Fixpoint dict_set (k : string) (v : pyval) (d : dict) : dict :=
  match d with
  | [] => [(k, v)]
  | (k', v') :: rest =>
      if String.eqb k' k then (k', v) :: rest else (k', v') :: dict_set k v rest
  end.

Definition read_literal (s : string) : option (pyval * string) :=
  if String.prefix "true" s then Some (PBool true, drop 4 s)
  else if String.prefix "false" s then Some (PBool false, drop 5 s)
  else if String.prefix "null" s then Some (PNone, drop 4 s)
  else None.

Fixpoint read_value (fuel : nat) (s : string) {struct fuel}
    : option (pyval * string) :=
  match fuel with
  | O => None
  | S f =>
      match skip_ws s with
      | "" => None
      | String c t =>
          if Ascii.eqb c "{" then
            match skip_ws t with
            | String c' t' =>
                if Ascii.eqb c' "}" then Some (PDict [], t')
                else read_members f t []
            | "" => None
            end
          else if Ascii.eqb c "[" then
            match skip_ws t with
            | String c' t' =>
                if Ascii.eqb c' "]" then Some (PList [], t')
                else read_elements f t []
            | "" => None
            end
          else if Ascii.eqb c dq then
            match read_string t with
            | Some (x, rest) => Some (PStr x, rest)
            | None => None
            end
          else if Ascii.eqb c "-" then
            match t with
            | String d _ =>
                match digit d with
                | Some _ => let (n, rest) := read_digits 0 t in
                            Some (PInt (- n), rest)
                | None => None
                end
            | "" => None
            end
          else
            match digit c with
            | Some _ => let (n, rest) := read_digits 0 (String c t) in
                        Some (PInt n, rest)
            | None => read_literal (String c t)
            end
      end
  end
with read_elements (fuel : nat) (s : string) (acc : list pyval) {struct fuel}
    : option (pyval * string) :=
  match fuel with
  | O => None
  | S f =>
      match read_value f s with
      | Some (v, rest) =>
          match skip_ws rest with
          | String c t =>
              if Ascii.eqb c "," then read_elements f t (acc ++ [v])
              else if Ascii.eqb c "]" then Some (PList (acc ++ [v]), t)
              else None
          | "" => None
          end
      | None => None
      end
  end
with read_members (fuel : nat) (s : string) (acc : dict) {struct fuel}
    : option (pyval * string) :=
  match fuel with
  | O => None
  | S f =>
      match skip_ws s with
      | String q t =>
          if Ascii.eqb q dq then
            match read_string t with
            | Some (k, rest) =>
                match skip_ws rest with
                | String c t2 =>
                    if Ascii.eqb c ":" then
                      match read_value f t2 with
                      | Some (v, rest2) =>
                          match skip_ws rest2 with
                          | String c3 t3 =>
                              if Ascii.eqb c3 "," then
                                read_members f t3 (dict_set k v acc)
                              else if Ascii.eqb c3 "}" then
                                Some (PDict (dict_set k v acc), t3)
                              else None
                          | "" => None
                          end
                      | None => None
                      end
                    else None
                | "" => None
                end
            | None => None
            end
          else None
      | "" => None
      end
  end.

(** [json.loads] on the subset above. *)
Definition loads (s : string) : option pyval :=
  match read_value (S (String.length s)) s with
  | Some (v, rest) =>
      match skip_ws rest with
      | "" => Some v
      | _ => None
      end
  | None => None
  end.

End Json.

Module Demo.

(** What [requests] checks of an address before sending: without
    [http://] or [https://] in front it raises [MissingSchema]. *)
Definition scheme_check (r : Request) : option exn :=
  if String.prefix "http://" (url r) || String.prefix "https://" (url r)
  then None else Some MissingSchema.

(** A portal that answers every request with [reply]. *)
Definition env (reply : Response) : Env :=
  {| portal := fun _ _ => reply;
     refuses := scheme_check;
     json_loads := Json.loads;
     json_dumps := fun _ => Return "{}";
     py_repr := fun _ => "<value>";
     ServerMessage := string;
     AutomationTask := pyval;
     ServerMessage_from_json := fun s => Return s;
     AutomationTask_from_json := fun v => Return v;
     open_rb := fun _ => Some [] |}.

Definition reply (status : Z) (body : string) : Response :=
  {| status_code := status; text := body; content := [];
     headers := fun _ => None |}.

(** A reply to [get_artifact]: the [Content-Disposition] value and the
    bytes of the body. *)
Definition artifact_reply (disposition : string) (body : list byte) : Response :=
  {| status_code := 200; text := ""; content := body;
     headers := fun k => if String.eqb k "Content-Disposition"
                         then Some disposition else None |}.

Definition pdf_bytes : list byte := [x25; x50; x44; x46].

(** The portal names the artifact with and without quotes. *)
Definition quoted_disposition : string :=
  "attachment; filename=" ++ quoted "report_20240101.pdf".

Definition unquoted_disposition : string :=
  "attachment; filename=report_20240101.pdf".

(** A client that has not logged in, and one holding the token ['T']. *)
Definition fresh : World :=
  {| self := {| _server := Some "http://x"; _login := Some "bob";
                _key := Some "k3y"; _access_token := PNone |};
     wire := [] |}.

Definition logged_in : World :=
  {| self := {| _server := Some "http://x"; _login := Some "bob";
                _key := Some "k3y"; _access_token := PStr "T" |};
     wire := [] |}.

(** The body whose [message] field is [bad thing]. *)
Definition bad_thing : string :=
  "{" ++ quoted "message" ++ ":" ++ quoted "bad thing" ++ "}".

(** The body whose [access_token] field is [T]. *)
Definition token_T : string :=
  "{" ++ quoted "access_token" ++ ":" ++ quoted "T" ++ "}".

(** The body whose [message] field is the text of an array of two objects,
    each with a [columns] object holding [a], first 1 and then 2; the inner
    quotes are escaped with a backslash. *)
Definition log_body : string :=
  let bq := String "\" (String dq "") in
  "{" ++ quoted "message" ++ ": "
  ++ quoted ("[{" ++ bq ++ "columns" ++ bq ++ ":{" ++ bq ++ "a" ++ bq ++ ":1}},{"
             ++ bq ++ "columns" ++ bq ++ ":{" ++ bq ++ "a" ++ bq ++ ":2}}]")
  ++ "}".

(** The same with a second object that has [other] and no [columns]. *)
Definition log_body_missing : string :=
  let bq := String "\" (String dq "") in
  "{" ++ quoted "message" ++ ": "
  ++ quoted ("[{" ++ bq ++ "columns" ++ bq ++ ":{" ++ bq ++ "a" ++ bq ++ ":1}},{"
             ++ bq ++ "other" ++ bq ++ ":2}]")
  ++ "}".

(** The body whose [message] field is the text of an array holding the
    number 1. *)
Definition log_body_number : string :=
  "{" ++ quoted "message" ++ ": " ++ quoted "[1]" ++ "}".

(** A client whose token was assigned and that has no server. *)
Definition serverless : World :=
  {| self := {| _server := None; _login := None; _key := None;
                _access_token := PStr "T" |};
     wire := [] |}.

(** An environment like [env] whose files do not open. *)
Definition env_no_files (reply : Response) : Env :=
  {| portal := fun _ _ => reply;
     refuses := scheme_check;
     json_loads := Json.loads;
     json_dumps := fun _ => Return "{}";
     py_repr := fun _ => "<value>";
     ServerMessage := string;
     AutomationTask := pyval;
     ServerMessage_from_json := fun s => Return s;
     AutomationTask_from_json := fun v => Return v;
     open_rb := fun _ => None |}.

(** An environment like [env] whose files all hold [pdf_bytes]. *)
Definition env_with_file (reply : Response) : Env :=
  {| portal := fun _ _ => reply;
     refuses := scheme_check;
     json_loads := Json.loads;
     json_dumps := fun _ => Return "{}";
     py_repr := fun _ => "<value>";
     ServerMessage := string;
     AutomationTask := pyval;
     ServerMessage_from_json := fun s => Return s;
     AutomationTask_from_json := fun v => Return v;
     open_rb := fun _ => Some pdf_bytes |}.

(** Bodies with a null token, with a number for a token, and an object
    without a token. *)
Definition token_null : string :=
  "{" ++ quoted "access_token" ++ ":null}".

Definition token_number : string :=
  "{" ++ quoted "access_token" ++ ":42}".

Definition no_token : string :=
  "{" ++ quoted "user" ++ ":" ++ quoted "bob" ++ "}".

(** A body whose [message] is the text of an array of one object and one
    number. *)
Definition log_body_mixed : string :=
  let bq := String "\" (String dq "") in
  "{" ++ quoted "message" ++ ": "
  ++ quoted ("[{" ++ bq ++ "columns" ++ bq ++ ":7},1]") ++ "}".

(** A body whose [message] is the text of an empty object. *)
Definition log_body_object : string :=
  "{" ++ quoted "message" ++ ": " ++ quoted "{}" ++ "}".

(** A body whose [message] is the text of an array of an object that has
    [other] and no [columns], and the number 1. *)
Definition log_body_malformed : string :=
  let bq := String "\" (String dq "") in
  "{" ++ quoted "message" ++ ": "
  ++ quoted ("[{" ++ bq ++ "other" ++ bq ++ ":2},1]") ++ "}".

(** A body with a [payload] string, and the [Content-Disposition] values
    of names without an underscore, without a dot, and without both. *)
Definition payload_body : string :=
  "{" ++ quoted "payload" ++ ":" ++ quoted "task-17" ++ "}".

Definition disposition_no_underscore : string :=
  "attachment; filename=" ++ quoted "report.pdf".

Definition disposition_no_dot : string :=
  "attachment; filename=" ++ quoted "report_20240101".

Definition disposition_plain : string :=
  "attachment; filename=" ++ quoted "report".

End Demo.


(** * Properties *)

(** ** Strings *)

Module PyStrFacts.

Lemma length_app (a b : string) :
  String.length (a ++ b) = (String.length a + String.length b)%nat.
Proof. induction a as [|c a IH]; simpl; [reflexivity | now rewrite IH]. Qed.

Lemma app_empty_r (a : string) : a ++ "" = a.
Proof. induction a as [|c a IH]; simpl; [reflexivity | now rewrite IH]. Qed.

Lemma app_assoc (a b c : string) : (a ++ b) ++ c = a ++ b ++ c.
Proof. induction a as [|x a IH]; simpl; [reflexivity | now rewrite IH]. Qed.

Lemma take_app (a b : string) : take (String.length a) (a ++ b) = a.
Proof. induction a as [|c a IH]; simpl; [now destruct b | now rewrite IH]. Qed.

Lemma drop_app (a b : string) : drop (String.length a) (a ++ b) = b.
Proof. induction a as [|c a IH]; simpl; [reflexivity | exact IH]. Qed.

Lemma take_all (a : string) : take (String.length a) a = a.
Proof. rewrite <- (app_empty_r a) at 2. apply take_app. Qed.

Lemma drop_0 (a : string) : drop 0 a = a.
Proof. reflexivity. Qed.

Lemma len_app (a b : string) : len (a ++ b) = len a + len b.
Proof. unfold len. rewrite length_app. lia. Qed.

Lemma len_nonneg (a : string) : 0 <= len a.
Proof. unfold len. lia. Qed.

Lemma len_String (c : ascii) (a : string) : len (String c a) = len a + 1.
Proof. unfold len. simpl String.length. lia. Qed.

(** [rfind] stays within the string. *)
Lemma rfind_range (c : ascii) (s : string) : -1 <= rfind c s < len s.
Proof.
  induction s as [|a t IH].
  - unfold len. simpl. lia.
  - rewrite len_String. simpl.
    destruct (0 <=? rfind c t) eqn:Hr.
    + apply Z.leb_le in Hr. lia.
    + pose proof (len_nonneg t). destruct (Ascii.eqb a c); lia.
Qed.

Lemma rfind_absent (c : ascii) (s : string) :
  contains c s = false -> rfind c s = -1.
Proof.
  induction s as [|a t IH]; simpl; [reflexivity|].
  intros H. apply orb_false_iff in H as [Ha Ht].
  rewrite (IH Ht), Ha. reflexivity.
Qed.

(** The last occurrence: nothing equal to [c] follows it. *)
Lemma rfind_last (c : ascii) (p t : string) :
  contains c t = false -> rfind c (p ++ String c t) = len p.
Proof.
  intros Ht. induction p as [|a p IH].
  - simpl. rewrite (rfind_absent _ _ Ht). simpl.
    now rewrite Ascii.eqb_refl.
  - rewrite len_String. simpl. rewrite IH.
    pose proof (len_nonneg p).
    destruct (0 <=? len p) eqn:Hp; [reflexivity|].
    apply Z.leb_gt in Hp. lia.
Qed.

(** [s[:n]] and [s[n:]] at a cut point of the string. *)
Lemma slice_prefix (a b : string) :
  slice (a ++ b) None (Some (len a)) = a.
Proof.
  unfold slice, clamp. pose proof (len_nonneg a). pose proof (len_nonneg b).
  rewrite len_app.
  destruct (len a <? 0) eqn:Hn; [apply Z.ltb_lt in Hn; lia|].
  rewrite Z.min_l by lia. unfold len. rewrite Nat2Z.id.
  simpl Z.to_nat. rewrite drop_0. apply take_app.
Qed.

Lemma slice_suffix (a b : string) :
  slice (a ++ b) (Some (len a)) None = b.
Proof.
  unfold slice, clamp. pose proof (len_nonneg a). pose proof (len_nonneg b).
  rewrite len_app.
  destruct (len a <? 0) eqn:Hn; [apply Z.ltb_lt in Hn; lia|].
  rewrite Z.min_l by lia. unfold len at 1. rewrite Nat2Z.id.
  replace (Z.to_nat (len a + len b)) with (String.length (a ++ b))
    by (rewrite length_app; unfold len; lia).
  rewrite take_all. apply drop_app.
Qed.

(** [s[:-1]] drops the last character. *)
Lemma slice_drop_last (a : string) (c : ascii) :
  slice (a ++ String c "") None (Some (-1)) = a.
Proof.
  unfold slice, clamp. rewrite len_app, len_String.
  pose proof (len_nonneg a). change (len "") with 0.
  change (-1 <? 0) with true. cbv iota.
  replace (Z.max 0 (-1 + (len a + (0 + 1)))) with (len a) by lia.
  unfold len. rewrite Nat2Z.id. simpl Z.to_nat. rewrite drop_0.
  apply take_app.
Qed.

(** [s[n:-1]] between a prefix of length [n] and the last character. *)
Lemma slice_middle (a b : string) (c : ascii) :
  slice (a ++ b ++ String c "") (Some (len a)) (Some (-1)) = b.
Proof.
  unfold slice, clamp. rewrite !len_app, len_String.
  pose proof (len_nonneg a). pose proof (len_nonneg b).
  change (len "") with 0. change (-1 <? 0) with true. cbv iota.
  destruct (len a <? 0) eqn:Hn; [apply Z.ltb_lt in Hn; lia|].
  rewrite Z.min_l by lia.
  replace (Z.max 0 (-1 + (len a + (len b + (0 + 1))))) with (len a + len b)
    by lia.
  replace (Z.to_nat (len a + len b)) with (String.length (a ++ b))
    by (rewrite length_app; unfold len; lia).
  rewrite <- app_assoc, take_app.
  unfold len. rewrite Nat2Z.id. apply drop_app.
Qed.

Lemma get_last (a : string) (c : ascii) :
  String.get (String.length a) (a ++ String c "") = Some c.
Proof. induction a as [|x a IH]; simpl; [reflexivity | exact IH]. Qed.

(** [s[-1]] is the last character. *)
Lemma getitem_last (a : string) (c : ascii) :
  getitem (a ++ String c "") (-1) = Some c.
Proof.
  unfold getitem. rewrite len_app, len_String. change (len "") with 0.
  pose proof (len_nonneg a). change (-1 <? 0) with true. cbv iota.
  replace (-1 + (len a + (0 + 1))) with (len a) by lia.
  destruct (len a <? 0) eqn:H1; [apply Z.ltb_lt in H1; lia|].
  destruct (len a + (0 + 1) <=? len a) eqn:H2; [apply Z.leb_le in H2; lia|].
  simpl. unfold len. rewrite Nat2Z.id. apply get_last.
Qed.

(** A string is empty or ends in some character. *)
Lemma last_split (s : string) :
  s = "" \/ exists a c, s = a ++ String c "".
Proof.
  induction s as [|x s IH]; [now left|right].
  destruct IH as [->|(a & c & ->)].
  - now exists "", x.
  - now exists (String x a), c.
Qed.

End PyStrFacts.

Import PyStrFacts.

(** ** The server address *)

Lemma truthy_nonempty (a : string) (c : ascii) :
  truthy (Some (a ++ String c "")) = true.
Proof. destruct a; reflexivity. Qed.

(** Assigning an address that ends in a slash stores it without that
    slash. *)
Lemma server_setter_slash (t : string) (w : World) :
  server_setter (Some (t ++ "/")) w =
  (Return tt,
   {| self := {| _server := Some t; _login := _login (self w);
                 _key := _key (self w);
                 _access_token := _access_token (self w) |};
      wire := wire w |}).
Proof.
  unfold server_setter.
  rewrite truthy_nonempty, getitem_last, slice_drop_last. reflexivity.
Qed.

(** Assigning an address that does not end in a slash stores it as it
    is. *)
Lemma server_setter_plain (s : string) (w : World) :
  (forall t, s <> t ++ "/") ->
  server_setter (Some s) w =
  (Return tt,
   {| self := {| _server := Some s; _login := _login (self w);
                 _key := _key (self w);
                 _access_token := _access_token (self w) |};
      wire := wire w |}).
Proof.
  intros Hs. unfold server_setter.
  destruct (last_split s) as [->|(a & c & ->)]; [reflexivity|].
  rewrite truthy_nonempty, getitem_last.
  destruct (Ascii.eqb_spec c "/") as [->|Hc]; [|reflexivity].
  now destruct (Hs a).
Qed.

(** C7. Storing a server address removes exactly one trailing slash when
    there is one and touches nothing but the stored address: for an [s]
    that does not end in a slash, assigning [s + '/'] and assigning [s]
    leave the same client, whose address is [s], through the setter and
    through the constructor alike; an address [t + '/'] is stored as [t]
    whatever [t] ends in; and no request goes on the wire. *)
Theorem server_trailing_slash_normalised
    (s : string) (login key : option string) (w : World) :
  (forall t, s <> t ++ "/") ->
  server_setter (Some (s ++ "/")) w = server_setter (Some s) w
  /\ _server (self (snd (server_setter (Some s) w))) = Some s
  /\ __init__ (Some (s ++ "/")) login key w = __init__ (Some s) login key w
  /\ _server (self (snd (__init__ (Some s) login key w))) = Some s
  /\ (forall t, _server (self (snd (server_setter (Some (t ++ "/")) w))) = Some t)
  /\ (forall a, wire (snd (server_setter a w)) = wire w
                /\ wire (snd (__init__ a login key w)) = wire w).
Proof.
  intros Hs. repeat split.
  - now rewrite server_setter_slash, server_setter_plain.
  - now rewrite server_setter_plain.
  - unfold __init__, bind, put_self.
    now rewrite server_setter_slash, server_setter_plain.
  - unfold __init__, bind, put_self. now rewrite server_setter_plain.
  - intros t. now rewrite server_setter_slash.
Qed.

Lemma server_trailing_slash_normalised_witness :
  (forall t, "http://x" <> t ++ "/")
  /\ server_setter (Some "http://x/") Demo.fresh
     = server_setter (Some "http://x") Demo.fresh.
Proof.
  assert (H : forall t, "http://x" <> t ++ "/").
  { intros t Ht.
    assert (Hg : getitem "http://x" (-1) = getitem (t ++ "/") (-1))
      by now rewrite <- Ht.
    rewrite getitem_last in Hg. discriminate Hg. }
  split; [exact H|].
  exact (proj1 (server_trailing_slash_normalised "http://x" None None
                  Demo.fresh H)).
Defined.

(** ** Running a method *)

Lemma snoc_inj {A} (l : list A) (a b : A) :
  (l ++ [a] = l ++ [b])%list -> a = b.
Proof. intros H. apply app_inv_head in H. now inversion H. Qed.

Lemma snoc_neq {A} (l : list A) (a : A) : l <> (l ++ [a])%list.
Proof.
  intros H. apply (f_equal (@List.length A)) in H.
  rewrite List.length_app in H. simpl in H. lia.
Qed.

(** Unfolding the monad down to the tests a method makes. *)
Ltac unfold_monad :=
  unfold raise_request_error, logoff in *;
  unfold ensure_access_token, access_token, access_token_setter,
    requests_post, requests_get, req_json, py_json_loads, py_get,
    py_subscript, py_iter, try_except_ValueError, of_result, fmap in *;
  unfold send, or_raise, bind, ret, raise, get_self, put_self in *;
  cbn beta iota zeta delta [fst snd self wire] in *.

(** Reduction that leaves strings and slices alone. *)
Ltac reduce_in H :=
  cbn beta iota zeta delta [fst snd self wire is_ValueError negb] in H.

(** A comprehension over a function that leaves the world alone leaves
    the world alone. *)
Lemma mapM_preserves {A B} (f : A -> M B) (xs : list A) (w : World) :
  (forall x w0, snd (f x w0) = w0) -> snd (mapM f xs w) = w.
Proof.
  intros Hf. revert w. induction xs as [|x rest IH]; intros w; [reflexivity|].
  simpl. unfold bind. specialize (Hf x w).
  destruct (f x w) as [[y|e] w1]; simpl in Hf; subst w1; [|reflexivity].
  specialize (IH w). destruct (mapM f rest w) as [[ys|e] w2]; simpl in IH;
    now subst w2.
Qed.

(** Case analysis on every test left in the run [H], innermost first. *)
Ltac split_run H :=
  repeat (reduce_in H;
          match type of H with
          | context [mapM ?f ?l ?w] =>
              let P := fresh "P" in
              let r := fresh "rows" in
              let w1 := fresh "w" in
              assert (P : snd (mapM f l w) = w)
                by (apply mapM_preserves; intros [] ?; reflexivity);
              destruct (mapM f l w) as [r w1]; cbn [snd] in P; subst w1
          | context [match ?x with _ => _ end] =>
              lazymatch x with
              | context [match _ with _ => _ end] => fail
              | _ => destruct x eqn:?
              end
          end);
  reduce_in H.

(** A run that put nothing on the wire contradicts [Hwire]. *)
Ltac no_request Hrun Hwire :=
  injection Hrun as _ <-; now destruct (snoc_neq _ _ Hwire).

(** The request [q] that a run [Hrun : m w = (res, w')] put on the wire,
    given [Hwire : wire w' = wire w ++ [q]]: it was not refused, and it is
    the request the method built, which replaces [q] under the name [r0]. *)
Ltac find_request Hrun Hwire r0 :=
  match type of Hrun with context [portal _ (wire _) ?r] =>
    set (r0 := r) in *
  end;
  match type of Hrun with context [refuses ?E r0] =>
    destruct (refuses E r0) eqn:?; reduce_in Hrun;
    [no_request Hrun Hwire|]
  end;
  let Hq := fresh "Hq" in
  match type of Hwire with wire ?w' = (wire ?w ++ [?q])%list =>
    assert (Hq : wire w' = (wire w ++ [r0])%list);
    [ let Hc := fresh "Hc" in
      pose proof Hrun as Hc; clearbody r0; split_run Hc;
      injection Hc as _ <-; reflexivity
    | rewrite Hq in Hwire; apply snoc_inj in Hwire; subst q; clear Hq ]
  end.

(** ** The artifact's file name *)

Lemma contains_app (c : ascii) (a b : string) :
  contains c (a ++ b) = contains c a || contains c b.
Proof.
  induction a as [|x a IH]; simpl; [reflexivity|].
  now rewrite IH, orb_assoc.
Qed.

(** With the name between double quotes after the last [=], the two
    slices cut the name at its last underscore and at its last dot. *)
Lemma artifact_filename_quoted (pre fname base mid stem ext : string) :
  contains "=" fname = false ->
  fname = base ++ "_" ++ mid -> contains "_" mid = false ->
  fname = stem ++ "." ++ ext -> contains "." ext = false ->
  artifact_filename (pre ++ "=" ++ quoted fname) = base ++ "." ++ ext.
Proof.
  intros Heq Hb Hmid Hs Hext. unfold artifact_filename, quoted.
  assert (Hr : rfind "=" (pre ++ "=" ++ String dq (fname ++ String dq ""))
               = len pre).
  { apply rfind_last. simpl. rewrite contains_app, Heq. reflexivity. }
  rewrite Hr.
  assert (Hf : slice (pre ++ "=" ++ String dq (fname ++ String dq ""))
                 (Some (len pre + 2)) (Some (-1)) = fname).
  { replace (len pre + 2) with (len (pre ++ String "=" (String dq "")))
      by (rewrite len_app, !len_String; change (len "") with 0; lia).
    replace (pre ++ "=" ++ String dq (fname ++ String dq ""))
      with ((pre ++ String "=" (String dq "")) ++ fname ++ String dq "")
      by (rewrite app_assoc; reflexivity).
    apply slice_middle. }
  rewrite Hf. f_equal.
  - rewrite Hb. change (base ++ "_" ++ mid) with (base ++ String "_" mid).
    rewrite rfind_last by assumption. apply slice_prefix.
  - rewrite Hs. change (stem ++ "." ++ ext) with (stem ++ String "." ext).
    rewrite rfind_last by assumption. apply slice_suffix.
Qed.

(** Without the quotes the same slices lose the first and the last
    character of the name, whatever precedes the [=]. *)
Lemma artifact_filename_unquoted (pre : string) :
  artifact_filename (pre ++ "=report_20240101.pdf") = "eport.pd".
Proof.
  unfold artifact_filename.
  change (pre ++ "=report_20240101.pdf")
    with (pre ++ String "=" "report_20240101.pdf").
  rewrite rfind_last by reflexivity.
  replace (pre ++ String "=" "report_20240101.pdf")
    with ((pre ++ "=r") ++ "eport_20240101.pd" ++ "f")
    by (rewrite app_assoc; reflexivity).
  replace (len pre + 2) with (len (pre ++ "=r"))
    by (rewrite len_app; reflexivity).
  rewrite slice_middle. reflexivity.
Qed.

(** C3, as amended. For every 200 reply to [get_artifact] whose
    [Content-Disposition] value ends in the file name between double quotes
    right after its last [=], the returned name is the part of the file name
    before its last underscore followed by the part from its last dot on,
    and the body bytes are returned as they came. *)
Theorem get_artifact_quoted_filename
    (E : Env) (artifact_id : Z) (w w' : World)
    (res : Result (string * list byte)) (q : Request)
    (pre fname base mid stem ext : string) :
  get_artifact E artifact_id w = (res, w') ->
  wire w' = (wire w ++ [q])%list ->
  status_code (portal E (wire w) q) = 200 ->
  headers (portal E (wire w) q) "Content-Disposition"
    = Some (pre ++ "=" ++ quoted fname) ->
  contains "=" fname = false ->
  fname = base ++ "_" ++ mid -> contains "_" mid = false ->
  fname = stem ++ "." ++ ext -> contains "." ext = false ->
  res = Return (base ++ "." ++ ext, content (portal E (wire w) q)).
Proof.
  intros Hrun Hwire Hstatus Hhead Heq Hb Hmid Hs Hext.
  unfold get_artifact in Hrun. unfold_monad.
  destruct (is_None (_access_token (self w))); reduce_in Hrun.
  - injection Hrun as _ <-. now destruct (snoc_neq _ _ Hwire).
  - find_request Hrun Hwire r0.
    rewrite Hstatus, Hhead in Hrun. reduce_in Hrun.
    rewrite (artifact_filename_quoted pre fname base mid stem ext) in Hrun
      by assumption.
    now inversion Hrun.
Qed.

Lemma get_artifact_quoted_filename_witness :
  fst (get_artifact
         (Demo.env (Demo.artifact_reply Demo.quoted_disposition Demo.pdf_bytes))
         7 Demo.logged_in)
  = Return ("report.pdf", Demo.pdf_bytes).
Proof.
  pose (E := Demo.env (Demo.artifact_reply Demo.quoted_disposition
                         Demo.pdf_bytes)).
  pose (q := {| verb := GET; url := "http://x/app/api/artifact/get";
                params := [("id", PInt 7); ("access_token", PStr "T")];
                data := []; files := [] |}).
  exact (get_artifact_quoted_filename E 7 Demo.logged_in
           (snd (get_artifact E 7 Demo.logged_in))
           (fst (get_artifact E 7 Demo.logged_in)) q
           "attachment; filename" "report_20240101.pdf"
           "report" "20240101.pdf" "report_20240101" "pdf"
           eq_refl eq_refl eq_refl eq_refl eq_refl eq_refl eq_refl eq_refl
           eq_refl).
Defined.

(** C3, as stated, fails on the unquoted value of its own example: the
    name returned for [...filename=report_20240101.pdf] is [eport.pd]. *)
Lemma get_artifact_unquoted_counterexample :
  fst (get_artifact
         (Demo.env (Demo.artifact_reply Demo.unquoted_disposition Demo.pdf_bytes))
         7 Demo.logged_in)
  = Return ("eport.pd", Demo.pdf_bytes)
  /\ fst (get_artifact
            (Demo.env (Demo.artifact_reply Demo.unquoted_disposition
                         Demo.pdf_bytes))
            7 Demo.logged_in)
     <> Return ("report.pdf", Demo.pdf_bytes).
Proof.
  split; [reflexivity|].
  intros H. vm_compute in H. discriminate H.
Qed.

(** ** The token guard *)

Ltac unfold_methods :=
  unfold invoke, alert, message, create_task, finish_task, restart_task,
    get_task, new_log, new_log_entry, get_log, delete_log, post_artifact,
    get_artifact in *.

(** A decorated method called without a token raises and leaves the world
    as it was. *)
Lemma invoke_without_token (E : Env) (c : call) (w : World) :
  _access_token (self w) = PNone ->
  invoke E c w =
  (Raise (RuntimeError
            "Access Token not available. Make sure to invoke login first."),
   w).
Proof.
  intros H. destruct c; unfold_methods; unfold_monad; rewrite H; reflexivity.
Qed.

(** C2. Each of the twelve authenticated operations, called while the
    stored token is absent, raises the token error and leaves the world,
    and so the wire, as it was; the token is absent on a client that was
    just constructed and on one that has logged off. *)
Theorem authenticated_call_needs_token (E : Env) (c : call) (w : World) :
  (_access_token (self w) = PNone ->
   invoke E c w =
   (Raise (RuntimeError
             "Access Token not available. Make sure to invoke login first."),
    w))
  /\ (forall server login key,
        invoke E c (snd (__init__ server login key w)) =
        (Raise (RuntimeError
                  "Access Token not available. Make sure to invoke login first."),
         snd (__init__ server login key w)))
  /\ invoke E c (snd (logoff w)) =
     (Raise (RuntimeError
               "Access Token not available. Make sure to invoke login first."),
      snd (logoff w)).
Proof.
  split; [apply invoke_without_token|split].
  - intros server login key. now apply invoke_without_token.
  - now apply invoke_without_token.
Qed.

Lemma authenticated_call_needs_token_witness :
  invoke (Demo.env (Demo.reply 200 Demo.bad_thing))
    (GetTask "17") Demo.fresh
  = (Raise (RuntimeError
              "Access Token not available. Make sure to invoke login first."),
     Demo.fresh).
Proof.
  exact (proj1 (authenticated_call_needs_token
                  (Demo.env (Demo.reply 200 Demo.bad_thing))
                  (GetTask "17") Demo.fresh) eq_refl).
Defined.

(** ** Replies other than 200 *)

(** Entering a decorated method: the guard passed, the value to serialise
    was serialised and, for [post_artifact], the file opened, or nothing
    went on the wire; then [q] is the request the method built, named
    [r0]. *)
Ltac enter_method Hrun Hwire r0 :=
  unfold_methods; unfold_monad;
  match type of Hrun with
  | context [is_None ?t] => destruct (is_None t); reduce_in Hrun
  end;
  [ no_request Hrun Hwire
  | try match type of Hrun with
        | context [open_rb ?E ?p] =>
            destruct (open_rb E p) eqn:?; reduce_in Hrun;
            [| no_request Hrun Hwire]
        | context [json_dumps ?E ?v] =>
            destruct (json_dumps E v) eqn:?; reduce_in Hrun;
            [| no_request Hrun Hwire]
        end;
    find_request Hrun Hwire r0 ].

(** C1 at [alert]. A reply other than 200 makes [alert] raise a
    [ValueError] whose arguments are the unfilled format ['Error during
    alert. %s'] and the raw body: the status code is not in it, and the
    body is not read as JSON. *)
Theorem alert_error_omits_status_and_message
    (E : Env) (task_id title message : string) (alert_type : pyval)
    (w w' : World) (res : Result (ServerMessage E)) (q : Request) :
  alert E task_id title message alert_type w = (res, w') ->
  wire w' = (wire w ++ [q])%list ->
  status_code (portal E (wire w) q) <> 200 ->
  res = Raise (ValueError [PStr "Error during alert. %s";
                           PStr (text (portal E (wire w) q))]).
Proof.
  intros Hrun Hwire Hstatus. unfold alert in Hrun.
  enter_method Hrun Hwire r0.
  apply Z.eqb_neq in Hstatus. rewrite Hstatus in Hrun.
  now injection Hrun as <- _.
Qed.

Lemma alert_error_omits_status_and_message_witness :
  fst (alert (Demo.env (Demo.reply 500 Demo.bad_thing))
         "17" "disk" "disk is full" (PStr "ERROR") Demo.logged_in)
  = Raise (ValueError [PStr "Error during alert. %s"; PStr Demo.bad_thing]).
Proof.
  pose (E := Demo.env (Demo.reply 500 Demo.bad_thing)).
  pose (run := alert E "17" "disk" "disk is full" (PStr "ERROR")
                 Demo.logged_in).
  refine (alert_error_omits_status_and_message E
            "17" "disk" "disk is full" (PStr "ERROR") Demo.logged_in
            (snd run) (fst run)
            {| verb := POST; url := "http://x/app/api/alert/send";
               params := [];
               data := [("taskId", PStr "17"); ("title", PStr "disk");
                        ("message", PStr "disk is full");
                        ("type", PStr "ERROR"); ("access_token", PStr "T")];
               files := [] |}
            eq_refl eq_refl _).
  vm_compute. discriminate.
Defined.

(** What the other methods do on the same reply, for comparison: the
    repeated block fills the format with the status code and the [message]
    field of the JSON object in the body, or with the raw body when the body
    is not JSON. *)
Lemma raise_request_error_object (E : Env) (A : Type) (what : string)
    (req : Response) (d : dict) (w : World) :
  json_loads E (text req) = Some (PDict d) ->
  @raise_request_error E A what req w =
  (Raise (ValueError
            [PStr ("Error during " ++ what ++ ". Server returned "
                   ++ percent_d (status_code req) ++ ". "
                   ++ percent_s E match lookup "message" d with
                                  | Some m => m
                                  | None => PStr ""
                                  end)]), w).
Proof. intros H. unfold_monad. rewrite H. reflexivity. Qed.

Lemma raise_request_error_not_json (E : Env) (A : Type) (what : string)
    (req : Response) (w : World) :
  json_loads E (text req) = None ->
  @raise_request_error E A what req w =
  (Raise (ValueError
            [PStr ("Error during " ++ what ++ ". Server returned "
                   ++ percent_d (status_code req) ++ ". " ++ text req)]), w).
Proof. intros H. unfold_monad. rewrite H. reflexivity. Qed.

(** [message] has no [except] branch: a reply other than 200 whose body is
    not JSON surfaces the decoder's error. *)
Lemma message_error_without_fallback
    (E : Env) (email users : list string) (subject body : string)
    (msg_type : pyval) (group : string)
    (w w' : World) (res : Result (ServerMessage E)) (q : Request) :
  message E email users subject body msg_type group w = (res, w') ->
  wire w' = (wire w ++ [q])%list ->
  status_code (portal E (wire w) q) <> 200 ->
  json_loads E (text (portal E (wire w) q)) = None ->
  res = Raise JSONDecodeError.
Proof.
  intros Hrun Hwire Hstatus Hjson. unfold message in Hrun.
  enter_method Hrun Hwire r0.
  apply Z.eqb_neq in Hstatus. rewrite Hstatus, Hjson in Hrun.
  now injection Hrun as <- _.
Qed.

(** No method returns a value on a reply other than 200. *)
Lemma invoke_other_than_200_raises
    (E : Env) (c : call) (w w' : World) (res : Result (value E))
    (q : Request) :
  invoke E c w = (res, w') ->
  wire w' = (wire w ++ [q])%list ->
  status_code (portal E (wire w) q) <> 200 ->
  exists e, res = Raise e.
Proof.
  intros Hrun Hwire Hstatus. apply Z.eqb_neq in Hstatus.
  destruct c; unfold invoke in Hrun.
  all: enter_method Hrun Hwire r0.
  all: try rewrite Hstatus in Hrun.
  all: split_run Hrun.
  all: try (injection Hrun as <- _; eexists; reflexivity).
  all: try congruence.
Qed.

(** On the reply that [alert] mishandles, [create_task] reports the status
    code and the message. *)
Example create_task_error_example :
  fst (create_task (Demo.env (Demo.reply 500 Demo.bad_thing))
         "invoices" [] false Demo.logged_in)
  = Raise (ValueError
             [PStr "Error during task create. Server returned 500. bad thing"]).
Proof. reflexivity. Qed.

(** ** The token on the wire *)

(** A decorated method called with a token ends in one of the four ways
    of [call_outcome]. *)
Lemma invoke_outcome (E : Env) (c : call) (w : World) :
  is_None (_access_token (self w)) = false ->
  call_outcome E (_access_token (self w)) c w
    (fst (invoke E c w)) (snd (invoke E c w)).
Proof.
  intros Hsome. destruct (invoke E c w) as [res w1] eqn:Hrun.
  cbn [fst snd]. unfold call_outcome.
  destruct c; unfold_methods; unfold_monad; rewrite Hsome in Hrun;
    reduce_in Hrun.
  all: try match type of Hrun with
           | context [open_rb ?E ?p] =>
               destruct (open_rb E p) eqn:Hopen; reduce_in Hrun;
               [| injection Hrun as <- <-; split; [reflexivity|];
                  right; right; left; do 3 eexists;
                  repeat split; exact Hopen]
           | context [json_dumps ?E ?v] =>
               destruct (json_dumps E v) eqn:Hdump; reduce_in Hrun;
               [| injection Hrun as <- <-; split; [reflexivity|];
                  right; right; right; do 2 eexists;
                  repeat split; try reflexivity; exact Hdump]
           end.
  all: match type of Hrun with context [portal _ (wire _) ?r] =>
         set (r0 := r) in *
       end.
  all: destruct (refuses E r0) as [e|] eqn:Hacc; reduce_in Hrun;
    [ injection Hrun as <- <-; split; [reflexivity|];
      right; left; exists r0, e; repeat split; exact Hacc |].
  all: assert (Hw : w1 = {| self := self w; wire := wire w ++ [r0] |})
         by (clearbody r0; split_run Hrun; injection Hrun as _ <-;
             reflexivity).
  all: subst w1; split; [reflexivity|]; left; exists r0.
  all: repeat split; solve [exact Hacc | reflexivity].
Qed.

(** In short: the client is as it was, and the wire is as it was or has
    one more request, which carries the token. *)
Lemma invoke_with_token (E : Env) (c : call) (token : pyval)
    (w w1 : World) (res : Result (value E)) :
  _access_token (self w) = token -> is_None token = false ->
  invoke E c w = (res, w1) ->
  self w1 = self w
  /\ ((exists q, wire w1 = (wire w ++ [q])%list
                 /\ verb q = verb_of c /\ carries_token token q)
      \/ wire w1 = wire w).
Proof.
  intros Htok Hsome Hrun. subst token.
  pose proof (invoke_outcome E c w Hsome) as [Hself H].
  rewrite Hrun in Hself, H. cbn [fst snd] in Hself, H.
  split; [exact Hself|].
  destruct H as [(r & _ & Hw & Hv & _ & Hc)
                |[(r & e & _ & _ & _ & _ & _ & Hw)
                 |[(t & a & f & _ & _ & _ & Hw)|(v & e & _ & _ & _ & Hw)]]].
  - left. now exists r.
  - now right.
  - now right.
  - now right.
Qed.

(** The same over a sequence of calls: the token stays, and every request
    the calls put on the wire carries it. *)
Lemma run_calls_with_token (E : Env) (token : pyval) (cs : list call)
    (w : World) :
  _access_token (self w) = token -> is_None token = false ->
  _access_token (self (run_calls E cs w)) = token
  /\ exists sent, wire (run_calls E cs w) = (wire w ++ sent)%list
                  /\ Forall (carries_token token) sent.
Proof.
  intros Htok Hsome. revert w Htok.
  induction cs as [|c rest IH]; intros w Htok; simpl.
  - split; [assumption|]. exists []. split; [now rewrite app_nil_r|constructor].
  - destruct (invoke E c w) as [res w1] eqn:Hrun. simpl.
    destruct (invoke_with_token E c token w w1 res Htok Hsome Hrun)
      as [Hself Hsent].
    destruct (IH w1) as [Htok' (sent & Hwire & Hall)];
      [now rewrite Hself|].
    split; [assumption|].
    destruct Hsent as [(q & Hq & _ & Hcarry)|Hq]; rewrite Hwire, Hq.
    + exists (q :: sent). split; [now rewrite <- List.app_assoc|].
      now constructor.
    + now exists sent.
Qed.

(** What the first statements of [login] leave: the world with the
    credentials overridden, the token and the wire untouched. *)
Lemma login_overrides_run (server login key : option string) (w : World) :
  exists o, login_overrides server login key w
            = (Return tt, {| self := o; wire := wire w |})
            /\ _access_token o = _access_token (self w).
Proof.
  unfold login_overrides. unfold_monad.
  destruct (truthy server); eexists; split; reflexivity.
Qed.

(** C4. When [login] gets a 200 reply whose JSON body is an object with
    ['access_token'] holding the string [T], it returns with [T] as the
    stored token.  From then on, after any number of authenticated calls,
    the next authenticated call keeps the client and builds one request that
    carries [access_token=T], among the form fields of a POST and among the
    query parameters of a GET, and that request goes on the wire unless
    [requests] refuses it; the call ends otherwise only on a file that does
    not open or on a value that [json.dumps] rejects.  Every request the
    calls put on the wire carries the token.  When the reply to [login] is
    not 200, [login] raises a [ValueError] whose message holds the status
    code and the body. *)
Theorem login_token_lifecycle
    (E : Env) (srv usr key : option string) (w w' : World)
    (res : Result unit) (q : Request) :
  login E srv usr key w = (res, w') ->
  wire w' = (wire w ++ [q])%list ->
  (forall T d,
      status_code (portal E (wire w) q) = 200 ->
      json_loads E (text (portal E (wire w) q)) = Some (PDict d) ->
      lookup "access_token" d = Some (PStr T) ->
      res = Return tt
      /\ _access_token (self w') = PStr T
      /\ (forall cs c,
            call_outcome E (PStr T) c (run_calls E cs w')
              (fst (invoke E c (run_calls E cs w')))
              (snd (invoke E c (run_calls E cs w'))))
      /\ (forall cs,
            _access_token (self (run_calls E cs w')) = PStr T
            /\ exists sent,
                 wire (run_calls E cs w') = (wire w' ++ sent)%list
                 /\ Forall (carries_token (PStr T)) sent))
  /\ (status_code (portal E (wire w) q) <> 200 ->
      res = Raise (ValueError
                     [PStr ("Error during login. Server returned "
                            ++ percent_d (status_code (portal E (wire w) q))
                            ++ ". " ++ text (portal E (wire w) q))])).
Proof.
  intros Hrun Hwire. unfold login in Hrun. unfold bind at 1 in Hrun.
  destruct (login_overrides_run srv usr key w) as (o & Ho & _).
  rewrite Ho in Hrun. unfold_monad.
  destruct (truthy (_server o)); reduce_in Hrun;
    [|no_request Hrun Hwire].
  destruct (truthy (_login o)); reduce_in Hrun;
    [|no_request Hrun Hwire].
  destruct (truthy (_key o)); reduce_in Hrun;
    [|no_request Hrun Hwire].
  find_request Hrun Hwire r0.
  split.
  - intros T d Hstatus Hjson Htok.
    rewrite Hstatus, Hjson in Hrun. reduce_in Hrun.
    rewrite Htok in Hrun. reduce_in Hrun.
    injection Hrun as <- <-.
    split; [reflexivity|]. split; [reflexivity|]. split.
    + intros cs c.
      match goal with |- context [run_calls E cs ?w0] =>
        destruct (run_calls_with_token E (PStr T) cs w0 eq_refl eq_refl)
          as [Hkept _];
        pose proof (invoke_outcome E c (run_calls E cs w0)) as Hout
      end.
      rewrite Hkept in Hout. exact (Hout eq_refl).
    + intros cs. now apply run_calls_with_token.
  - intros Hstatus. apply Z.eqb_neq in Hstatus. rewrite Hstatus in Hrun.
    now injection Hrun as <- _.
Qed.

Lemma login_token_lifecycle_witness :
  (fst (login (Demo.env (Demo.reply 200 Demo.token_T))
          None None None Demo.fresh) = Return tt
   /\ _access_token
        (self (snd (login (Demo.env (Demo.reply 200 Demo.token_T))
                      None None None Demo.fresh))) = PStr "T"
   /\ exists r,
        wire (snd (invoke (Demo.env (Demo.reply 200 Demo.token_T))
                     (NewLogEntry "invoices" [("n", PInt 1)])
                     (run_calls (Demo.env (Demo.reply 200 Demo.token_T))
                        [GetTask "17"]
                        (snd (login (Demo.env (Demo.reply 200 Demo.token_T))
                                None None None Demo.fresh)))))
        = (wire (run_calls (Demo.env (Demo.reply 200 Demo.token_T))
                   [GetTask "17"]
                   (snd (login (Demo.env (Demo.reply 200 Demo.token_T))
                           None None None Demo.fresh)))
           ++ [r])%list
        /\ verb r = POST
        /\ url r = "http://x/app/api/newLogEntry"
        /\ lookup "access_token" (data r) = Some (PStr "T"))
  /\ fst (login (Demo.env (Demo.reply 403 "denied"))
            None None None Demo.fresh)
     = Raise (ValueError
                [PStr "Error during login. Server returned 403. denied"]).
Proof.
  pose (q := {| verb := POST; url := "http://x/app/api/login"; params := [];
                data := [("userLogin", PStr "bob"); ("key", PStr "k3y")];
                files := [] |}).
  split.
  - pose (E := Demo.env (Demo.reply 200 Demo.token_T)).
    pose (run := login E None None None Demo.fresh).
    destruct (proj1 (login_token_lifecycle E None None None Demo.fresh
                       (snd run) (fst run) q eq_refl eq_refl)
                "T" [("access_token", PStr "T")] eq_refl eq_refl eq_refl)
      as (Hres & Htok & Hcall & _).
    split; [exact Hres|]. split; [exact Htok|].
    destruct (Hcall [GetTask "17"] (NewLogEntry "invoices" [("n", PInt 1)]))
      as [_ [(r & _ & Hw & Hv & Hu & Hc)
            |[(r & e & Href & _ & Hu & _)
             |[(t & a & f & Hpost & _)|(v & e & _ & Hdump & _)]]]].
    + exists r. split; [exact Hw|]. split; [exact Hv|]. split; [exact Hu|].
      unfold carries_token, fields in Hc. rewrite Hv in Hc. exact Hc.
    + exfalso. cbn [refuses E Demo.env] in Href.
      unfold Demo.scheme_check in Href. rewrite Hu in Href.
      discriminate Href.
    + discriminate Hpost.
    + discriminate Hdump.
  - pose (E := Demo.env (Demo.reply 403 "denied")).
    pose (run := login E None None None Demo.fresh).
    refine (proj2 (login_token_lifecycle E None None None Demo.fresh
                     (snd run) (fst run) q eq_refl eq_refl) _).
    vm_compute. discriminate.
Defined.

(** ** Validation of the credentials *)

(** [login] stops at the first credential that is empty after the
    overrides, in the world the overrides left. *)
Lemma login_invalid (E : Env) (srv usr key : option string) (w : World) :
  let w1 := snd (login_overrides srv usr key w) in
  (truthy (_server (self w1)) = false ->
   login E srv usr key w = (Raise (ValueError [PStr "Server is required."]), w1))
  /\ (truthy (_server (self w1)) = true ->
      truthy (_login (self w1)) = false ->
      login E srv usr key w
      = (Raise (ValueError [PStr "Login is required."]), w1))
  /\ (truthy (_server (self w1)) = true ->
      truthy (_login (self w1)) = true ->
      truthy (_key (self w1)) = false ->
      login E srv usr key w = (Raise (ValueError [PStr "Key is required."]), w1))
  /\ wire w1 = wire w
  /\ _access_token (self w1) = _access_token (self w).
Proof.
  destruct (login_overrides_run srv usr key w) as (o & Ho & Htok).
  unfold login. unfold_monad. rewrite !Ho.
  cbn beta iota zeta delta [fst snd self wire].
  repeat split; try assumption; intros; repeat
    match goal with
    | H : truthy _ = _ |- _ => rewrite H; clear H
    end; reflexivity.
Qed.

(** C5. When the server, the login or the key is empty once the arguments
    have overridden the stored credentials, [login] raises the [ValueError]
    that names the first such field, in the order server, login, key, and
    the wire is as it was before the call. *)
Theorem login_requires_credentials
    (E : Env) (srv usr key : option string) (w : World) :
  let o := self (snd (login_overrides srv usr key w)) in
  truthy (_server o) = false \/ truthy (_login o) = false
  \/ truthy (_key o) = false ->
  exists field,
    fst (login E srv usr key w)
    = Raise (ValueError [PStr (field ++ " is required.")])
    /\ wire (snd (login E srv usr key w)) = wire w
    /\ ((field = "Server" /\ truthy (_server o) = false)
        \/ (field = "Login" /\ truthy (_server o) = true
            /\ truthy (_login o) = false)
        \/ (field = "Key" /\ truthy (_server o) = true
            /\ truthy (_login o) = true /\ truthy (_key o) = false)).
Proof.
  intros o H. subst o.
  destruct (login_invalid E srv usr key w) as (Hs & Hl & Hk & Hw & _).
  destruct (truthy (_server (self (snd (login_overrides srv usr key w)))))
    eqn:Es.
  - destruct (truthy (_login (self (snd (login_overrides srv usr key w)))))
      eqn:El.
    + destruct (truthy (_key (self (snd (login_overrides srv usr key w)))))
        eqn:Ek.
      * destruct H as [H|[H|H]]; discriminate H.
      * exists "Key". rewrite (Hk eq_refl eq_refl eq_refl).
        split; [reflexivity|]. split; [exact Hw|]. right. right. auto.
    + exists "Login". rewrite (Hl eq_refl eq_refl).
      split; [reflexivity|]. split; [exact Hw|]. right. left. auto.
  - exists "Server". rewrite (Hs eq_refl).
    split; [reflexivity|]. split; [exact Hw|]. left. auto.
Qed.

Lemma login_requires_credentials_witness :
  exists field,
    fst (login (Demo.env (Demo.reply 200 Demo.token_T))
           (Some "/") None None Demo.logged_in)
    = Raise (ValueError [PStr (field ++ " is required.")])
    /\ wire (snd (login (Demo.env (Demo.reply 200 Demo.token_T))
                    (Some "/") None None Demo.logged_in))
       = wire Demo.logged_in
    /\ ((field = "Server" /\ truthy (Some "") = false)
        \/ (field = "Login" /\ truthy (Some "") = true
            /\ truthy (Some "bob") = false)
        \/ (field = "Key" /\ truthy (Some "") = true
            /\ truthy (Some "bob") = true /\ truthy (Some "k3y") = false)).
Proof.
  exact (login_requires_credentials
           (Demo.env (Demo.reply 200 Demo.token_T))
           (Some "/") None None Demo.logged_in (or_introl eq_refl)).
Defined.

(** C9. When [login] stops at an empty credential, the stored token is
    the one from before the call: the checks raise ahead of [logoff]. *)
Theorem login_invalid_keeps_token
    (E : Env) (srv usr key : option string) (w : World) :
  let o := self (snd (login_overrides srv usr key w)) in
  truthy (_server o) = false \/ truthy (_login o) = false
  \/ truthy (_key o) = false ->
  (exists msg, fst (login E srv usr key w) = Raise (ValueError [PStr msg]))
  /\ _access_token (self (snd (login E srv usr key w)))
     = _access_token (self w).
Proof.
  intros o H. subst o.
  destruct (login_invalid E srv usr key w) as (Hs & Hl & Hk & _ & Ht).
  destruct (truthy (_server (self (snd (login_overrides srv usr key w)))))
    eqn:Es.
  - destruct (truthy (_login (self (snd (login_overrides srv usr key w)))))
      eqn:El.
    + destruct (truthy (_key (self (snd (login_overrides srv usr key w)))))
        eqn:Ek.
      * destruct H as [H|[H|H]]; discriminate H.
      * rewrite (Hk eq_refl eq_refl eq_refl). split; [now eexists|exact Ht].
    + rewrite (Hl eq_refl eq_refl). split; [now eexists|exact Ht].
  - rewrite (Hs eq_refl). split; [now eexists|exact Ht].
Qed.

Lemma login_invalid_keeps_token_witness :
  _access_token
    (self (snd (login (Demo.env (Demo.reply 200 Demo.token_T))
                  (Some "/") None None Demo.logged_in)))
  = PStr "T".
Proof.
  exact (proj2 (login_invalid_keeps_token
                  (Demo.env (Demo.reply 200 Demo.token_T))
                  (Some "/") None None Demo.logged_in (or_introl eq_refl))).
Defined.

(** ** The overrides *)

(** The credentials the first statements of [login] store. *)
Lemma login_overrides_stored (srv usr key : option string) (w : World) :
  let o := self (snd (login_overrides srv usr key w)) in
  _server o = (if truthy srv
               then _server (self (snd (server_setter srv w)))
               else _server (self w))
  /\ _login o = py_or usr (_login (self w))
  /\ _key o = py_or key (_key (self w)).
Proof.
  unfold login_overrides. unfold_monad.
  destruct (truthy srv); repeat split; reflexivity.
Qed.

(** Nothing after the overrides assigns a credential, however [login]
    ends. *)
Lemma login_keeps_overrides (E : Env) (srv usr key : option string)
    (w : World) :
  let o := self (snd (login_overrides srv usr key w)) in
  let o' := self (snd (login E srv usr key w)) in
  _server o' = _server o /\ _login o' = _login o /\ _key o' = _key o.
Proof.
  destruct (login_overrides_run srv usr key w) as (o & Ho & _).
  destruct (login E srv usr key w) as [res w'] eqn:Hrun.
  unfold login in Hrun. unfold_monad. rewrite !Ho in *.
  cbn beta iota zeta delta [fst snd self wire] in *.
  split_run Hrun; injection Hrun as _ <-; repeat split; reflexivity.
Qed.

(** C6, as amended. After a call of [login], however it ends: a server
    argument that is not empty is stored with one trailing slash removed
    when it has one and as it is otherwise; a login or key argument that is
    not empty is stored as it is; and a credential whose argument is omitted
    or empty is the one stored before the call. *)
Theorem login_stores_overrides
    (E : Env) (srv usr key : option string) (w : World) :
  let o' := self (snd (login E srv usr key w)) in
  (forall t, srv = Some (t ++ "/") -> _server o' = Some t)
  /\ (forall s, srv = Some s -> s <> "" -> (forall t, s <> t ++ "/") ->
      _server o' = Some s)
  /\ (truthy srv = false -> _server o' = _server (self w))
  /\ (truthy usr = true -> _login o' = usr)
  /\ (truthy usr = false -> _login o' = _login (self w))
  /\ (truthy key = true -> _key o' = key)
  /\ (truthy key = false -> _key o' = _key (self w)).
Proof.
  intros o'. subst o'.
  destruct (login_keeps_overrides E srv usr key w) as (-> & -> & ->).
  destruct (login_overrides_stored srv usr key w) as (-> & -> & ->).
  unfold py_or. repeat split.
  - intros t ->. now rewrite truthy_nonempty, server_setter_slash.
  - intros s -> Hne Hs.
    replace (truthy (Some s)) with true by (now destruct s).
    now rewrite server_setter_plain.
  - now intros ->.
  - now intros ->.
  - now intros ->.
  - now intros ->.
  - now intros ->.
Qed.

Lemma login_stores_overrides_witness :
  _server (self (snd (login (Demo.env (Demo.reply 200 Demo.token_T))
                        (Some "http://y/") (Some "eve") None Demo.fresh)))
  = Some "http://y"
  /\ _login (self (snd (login (Demo.env (Demo.reply 200 Demo.token_T))
                          (Some "http://y/") (Some "eve") None Demo.fresh)))
     = Some "eve"
  /\ _key (self (snd (login (Demo.env (Demo.reply 200 Demo.token_T))
                        (Some "http://y/") (Some "eve") None Demo.fresh)))
     = Some "k3y".
Proof.
  destruct (login_stores_overrides (Demo.env (Demo.reply 200 Demo.token_T))
              (Some "http://y/") (Some "eve") None Demo.fresh)
    as (Hs & _ & _ & Hl & _ & _ & Hk).
  split; [exact (Hs "http://y" eq_refl)|].
  split; [exact (Hl eq_refl) | exact (Hk eq_refl)].
Defined.

(** C6, as stated, fails: a server argument with a trailing slash is not
    what is stored, and an empty login argument does not replace the stored
    login. *)
Lemma login_override_counterexample :
  _server (self (snd (login (Demo.env (Demo.reply 200 Demo.token_T))
                        (Some "http://y/") None None Demo.fresh)))
  <> Some "http://y/"
  /\ _login (self (snd (login (Demo.env (Demo.reply 200 Demo.token_T))
                          None (Some "") None Demo.fresh)))
     <> Some "".
Proof. split; intros H; vm_compute in H; discriminate H. Qed.

(** ** Reading a log *)

(** A comprehension over a function that returns on every element returns
    the mapped list. *)
Lemma mapM_pure {A B} (f : A -> M B) (g : A -> B) (xs : list A) (w : World) :
  (forall x, In x xs -> forall w0, f x w0 = (Return (g x), w0)) ->
  mapM f xs w = (Return (map g xs), w).
Proof.
  induction xs as [|x rest IH]; intros Hf; [reflexivity|].
  simpl. unfold bind. rewrite (Hf x (or_introl eq_refl)).
  rewrite IH by (intros y Hy; apply Hf; now right). reflexivity.
Qed.

(** On a 200 reply whose [message] is the text of an array of objects,
    [get_log] returns, object by object, what [entry.get('columns')]
    gives. *)
Lemma get_log_rows
    (E : Env) (activity_label : string) (date : option string)
    (w w' : World) (res : Result (list pyval)) (q : Request)
    (d : dict) (m : string) (objs : list dict) :
  get_log E activity_label date w = (res, w') ->
  wire w' = (wire w ++ [q])%list ->
  status_code (portal E (wire w) q) = 200 ->
  json_loads E (text (portal E (wire w) q)) = Some (PDict d) ->
  lookup "message" d = Some (PStr m) ->
  json_loads E m = Some (PList (map PDict objs)) ->
  res = Return (map (fun o => match lookup "columns" o with
                              | Some c => c
                              | None => PNone
                              end) objs).
Proof.
  intros Hrun Hwire Hstatus Hbody Hmsg Harr. unfold get_log in Hrun.
  enter_method Hrun Hwire r0.
  rewrite Hstatus, Z.eqb_refl, Hbody in Hrun. reduce_in Hrun.
  rewrite Hmsg in Hrun. reduce_in Hrun.
  rewrite Harr in Hrun. reduce_in Hrun.
  rewrite (mapM_pure _ (fun entry => match entry with
                                     | PDict o => match lookup "columns" o with
                                                  | Some c => c
                                                  | None => PNone
                                                  end
                                     | _ => PNone
                                     end)) in Hrun.
  - injection Hrun as <- _. now rewrite map_map.
  - intros x Hin w0. apply in_map_iff in Hin as (o & <- & _). reflexivity.
Qed.

Lemma columns_of_all (objs : list dict) (cols : list pyval) :
  Forall2 (fun o c => lookup "columns" o = Some c) objs cols ->
  map (fun o => match lookup "columns" o with
                | Some c => c
                | None => PNone
                end) objs = cols.
Proof.
  induction 1 as [|o c objs' cols' Hoc _ IH]; [reflexivity|].
  simpl. now rewrite Hoc, IH.
Qed.

(** C8. For every 200 reply to [get_log] whose body is a JSON object with
    a [message] string that is the text of an array of objects, each with a
    [columns] field, the result is the list of those [columns] values, one
    per object and in the order of the array. *)
Theorem get_log_projects_columns
    (E : Env) (activity_label : string) (date : option string)
    (w w' : World) (res : Result (list pyval)) (q : Request)
    (d : dict) (m : string) (objs : list dict) (cols : list pyval) :
  get_log E activity_label date w = (res, w') ->
  wire w' = (wire w ++ [q])%list ->
  status_code (portal E (wire w) q) = 200 ->
  json_loads E (text (portal E (wire w) q)) = Some (PDict d) ->
  lookup "message" d = Some (PStr m) ->
  json_loads E m = Some (PList (map PDict objs)) ->
  Forall2 (fun o c => lookup "columns" o = Some c) objs cols ->
  res = Return cols.
Proof.
  intros Hrun Hwire Hstatus Hbody Hmsg Harr Hcols.
  rewrite (get_log_rows E activity_label date w w' res q d m objs)
    by assumption.
  f_equal. now apply columns_of_all.
Qed.

Lemma get_log_projects_columns_witness :
  fst (get_log (Demo.env (Demo.reply 200 Demo.log_body))
         "invoices" (Some "") Demo.logged_in)
  = Return [PDict [("a", PInt 1)]; PDict [("a", PInt 2)]].
Proof.
  pose (E := Demo.env (Demo.reply 200 Demo.log_body)).
  pose (run := get_log E "invoices" (Some "") Demo.logged_in).
  refine (get_log_projects_columns E "invoices" (Some "") Demo.logged_in
            (snd run) (fst run)
            {| verb := GET; url := "http://x/app/api/log/read";
               params := [("activityLabel", PStr "invoices");
                          ("date", PStr ""); ("access_token", PStr "T")];
               data := []; files := [] |}
            [("message",
              PStr (String.concat ""
                      ["[{"; quoted "columns"; ":{"; quoted "a"; ":1}},{";
                       quoted "columns"; ":{"; quoted "a"; ":2}}]"]))]
            _
            [[("columns", PDict [("a", PInt 1)])];
             [("columns", PDict [("a", PInt 2)])]]
            [PDict [("a", PInt 1)]; PDict [("a", PInt 2)]]
            eq_refl eq_refl eq_refl eq_refl eq_refl eq_refl _).
  repeat constructor.
Defined.

(** C10, as amended. For every 200 reply to [get_log] whose [message] is
    the text of an array of objects, the call returns a list with one
    element per object, and the element is [None] wherever the object has no
    [columns] key. *)
Theorem get_log_missing_columns
    (E : Env) (activity_label : string) (date : option string)
    (w w' : World) (res : Result (list pyval)) (q : Request)
    (d : dict) (m : string) (objs : list dict) :
  get_log E activity_label date w = (res, w') ->
  wire w' = (wire w ++ [q])%list ->
  status_code (portal E (wire w) q) = 200 ->
  json_loads E (text (portal E (wire w) q)) = Some (PDict d) ->
  lookup "message" d = Some (PStr m) ->
  json_loads E m = Some (PList (map PDict objs)) ->
  exists rows,
    res = Return rows
    /\ List.length rows = List.length objs
    /\ forall i o, nth_error objs i = Some o ->
                   lookup "columns" o = None ->
                   nth_error rows i = Some PNone.
Proof.
  intros Hrun Hwire Hstatus Hbody Hmsg Harr.
  eexists. split; [|split].
  - exact (get_log_rows E activity_label date w w' res q d m objs
             Hrun Hwire Hstatus Hbody Hmsg Harr).
  - apply List.length_map.
  - intros i o Hi Hnone.
    rewrite nth_error_map, Hi. simpl. now rewrite Hnone.
Qed.

Lemma get_log_missing_columns_witness :
  exists rows,
    fst (get_log (Demo.env (Demo.reply 200 Demo.log_body_missing))
           "invoices" None Demo.logged_in) = Return rows
    /\ List.length rows = 2%nat
    /\ forall i o,
         nth_error [[("columns", PDict [("a", PInt 1)])]; [("other", PInt 2)]] i
         = Some o ->
         lookup "columns" o = None ->
         nth_error rows i = Some PNone.
Proof.
  pose (E := Demo.env (Demo.reply 200 Demo.log_body_missing)).
  pose (run := get_log E "invoices" None Demo.logged_in).
  exact (get_log_missing_columns E "invoices" None Demo.logged_in
           (snd run) (fst run)
           {| verb := GET; url := "http://x/app/api/log/read";
              params := [("activityLabel", PStr "invoices");
                         ("date", PNone); ("access_token", PStr "T")];
              data := []; files := [] |}
           [("message",
             PStr (String.concat ""
                     ["[{"; quoted "columns"; ":{"; quoted "a"; ":1}},{";
                      quoted "other"; ":2}]"]))]
           _
           [[("columns", PDict [("a", PInt 1)])]; [("other", PInt 2)]]
           eq_refl eq_refl eq_refl eq_refl eq_refl eq_refl).
Defined.

(** An entry of the array that is not an object has no [get]: the
    comprehension raises. *)
Example get_log_entry_not_object :
  fst (get_log (Demo.env (Demo.reply 200 Demo.log_body_number))
         "invoices" None Demo.logged_in)
  = Raise AttributeError.
Proof. reflexivity. Qed.

(** C10, as stated, fails: on an array that holds an object without
    [columns] next to an entry that is not an object, [get_log] raises
    instead of returning one element per entry. *)
Lemma get_log_malformed_entry_counterexample :
  Json.loads (String.concat "" ["[{"; quoted "other"; ":2},1]"])
  = Some (PList [PDict [("other", PInt 2)]; PInt 1])
  /\ lookup "columns" [("other", PInt 2)] = None
  /\ fst (get_log (Demo.env (Demo.reply 200 Demo.log_body_malformed))
            "invoices" None Demo.logged_in)
     = Raise AttributeError.
Proof. repeat split; reflexivity. Qed.

(** * Further properties of the module *)

(** ** What an authenticated call does to the world *)

Lemma is_None_true (v : pyval) : is_None v = true -> v = PNone.
Proof. now destruct v. Qed.

(** No authenticated operation assigns an attribute of the client:
    whatever the token and the reply, the server, the login, the key and the
    token after the call are those before it. *)
Theorem invoke_keeps_client (E : Env) (c : call) (w : World) :
  self (snd (invoke E c w)) = self w.
Proof.
  destruct (is_None (_access_token (self w))) eqn:Htok.
  - now rewrite (invoke_without_token E c w (is_None_true _ Htok)).
  - destruct (invoke E c w) as [res w1] eqn:Hrun.
    now destruct (invoke_with_token E c _ w w1 res eq_refl Htok Hrun).
Qed.

(** With a token, whatever it is, an operation keeps the client and ends
    in one of four ways.  It builds one request, with the operation's verb,
    the stored server (printed as [None] when there is none) followed by the
    operation's path as address and the token among its fields, and
    [requests] sends it, after the requests already on the wire; or
    [requests] refuses that request and the operation raises the refusal
    with nothing sent; or it is [post_artifact] on a file that does not open,
    which raises [OSError]; or [json.dumps] raises on the value to
    serialise, and the operation raises the same. *)
Theorem invoke_hands_one_request (E : Env) (c : call) (w : World) :
  is_None (_access_token (self w)) = false ->
  call_outcome E (_access_token (self w)) c w
    (fst (invoke E c w)) (snd (invoke E c w)).
Proof. apply invoke_outcome. Qed.

Lemma invoke_hands_one_request_witness :
  fst (invoke (Demo.env (Demo.reply 200 Demo.bad_thing))
         (RestartTask "17") Demo.serverless)
  = Raise MissingSchema
  /\ wire (snd (invoke (Demo.env (Demo.reply 200 Demo.bad_thing))
                  (RestartTask "17") Demo.serverless))
     = [].
Proof.
  destruct (invoke_hands_one_request
              (Demo.env (Demo.reply 200 Demo.bad_thing))
              (RestartTask "17") Demo.serverless eq_refl)
    as [_ [(r & Hacc & _ & _ & Hu & _)
          |[(r & e & Href & _ & Hu & _ & Hres & Hw)
           |[(t & a & f & Hpost & _)|(v & e' & Hd & _)]]]].
  - exfalso. cbn [refuses Demo.env] in Hacc.
    unfold Demo.scheme_check in Hacc. rewrite Hu in Hacc. discriminate Hacc.
  - cbn [refuses Demo.env] in Href.
    unfold Demo.scheme_check in Href. rewrite Hu in Href.
    injection Href as <-. split; [exact Hres | exact Hw].
  - discriminate Hpost.
  - discriminate Hd.
Defined.

Lemma run_calls_without_token (E : Env) (cs : list call) (w : World) :
  _access_token (self w) = PNone -> run_calls E cs w = w.
Proof.
  intros Htok. induction cs as [|c rest IH]; [reflexivity|].
  simpl. now rewrite (invoke_without_token E c w Htok).
Qed.

(** Without a token nothing goes out, however many calls are made: after
    [logoff], and on a client just constructed, a sequence of authenticated
    calls leaves the world as it is. *)
Theorem calls_after_logoff_are_silent (E : Env) (cs : list call)
    (server login key : option string) (w : World) :
  run_calls E cs (snd (logoff w)) = snd (logoff w)
  /\ run_calls E cs (snd (__init__ server login key w))
     = snd (__init__ server login key w).
Proof. split; now apply run_calls_without_token. Qed.

(** The guard tests the token against [None] only.  Once a token that is
    not [None], the empty string included, is assigned through the property,
    every authenticated call made after it, whatever calls came between,
    passes the guard without [login]: it ends in one of the four ways of
    [call_outcome], with the assigned token in the request it builds.  The
    token stays stored, and every request on the wire after the assignment
    carries it. *)
Theorem assigned_token_is_used (E : Env) (token : pyval) (cs : list call)
    (c : call) (w : World) :
  is_None token = false ->
  let w0 := run_calls E cs (snd (access_token_setter token w)) in
  call_outcome E token c w0 (fst (invoke E c w0)) (snd (invoke E c w0))
  /\ _access_token (self w0) = token
  /\ exists sent, wire w0 = (wire w ++ sent)%list
                  /\ Forall (carries_token token) sent.
Proof.
  intros Hsome w0.
  destruct (run_calls_with_token E token cs
              (snd (access_token_setter token w)) eq_refl Hsome)
    as [Hkept Hsent].
  split; [|split; [exact Hkept | exact Hsent]].
  pose proof (invoke_outcome E c w0) as Hout.
  fold w0 in Hkept. rewrite Hkept in Hout. exact (Hout Hsome).
Qed.

Lemma assigned_token_is_used_witness :
  exists r,
    wire (snd (invoke (Demo.env (Demo.reply 200 Demo.bad_thing))
                 (DeleteLog "invoices")
                 (snd (access_token_setter (PStr "") Demo.fresh))))
    = ([] ++ [r])%list
    /\ verb r = POST
    /\ lookup "access_token" (data r) = Some (PStr "").
Proof.
  destruct (assigned_token_is_used
              (Demo.env (Demo.reply 200 Demo.bad_thing)) (PStr "") []
              (DeleteLog "invoices") Demo.fresh eq_refl)
    as [[_ [(r & _ & Hw & Hv & _ & Hc)
           |[(r & e & Href & _ & Hu & _)
            |[(t & a & f & Hpost & _)|(v & e' & Hd & _)]]]] _].
  - exists r. split; [exact Hw|]. split; [exact Hv|].
    unfold carries_token, fields in Hc. rewrite Hv in Hc. exact Hc.
  - exfalso. cbn [refuses Demo.env] in Href.
    unfold Demo.scheme_check in Href. rewrite Hu in Href. discriminate Href.
  - discriminate Hpost.
  - discriminate Hd.
Defined.

(** ** More on [login] *)

(** Entering [login] in a run that sent a request: the three checks
    passed, and [q] is the request [login] built, named [r0], from the
    client [o] the overrides left. *)
Ltac enter_login Hrun Hwire o r0 :=
  unfold login in Hrun; unfold bind at 1 in Hrun;
  let Ho := fresh "Ho" in
  match type of Hrun with
  | context [login_overrides ?s ?u ?k ?w] =>
      destruct (login_overrides_run s u k w) as (o & Ho & _);
      rewrite Ho in Hrun; clear Ho
  end;
  unfold_monad;
  destruct (truthy (_server o)); reduce_in Hrun; [|no_request Hrun Hwire];
  destruct (truthy (_login o)); reduce_in Hrun; [|no_request Hrun Hwire];
  destruct (truthy (_key o)); reduce_in Hrun; [|no_request Hrun Hwire];
  find_request Hrun Hwire r0.

(** A [login] that reached the portal and raised leaves the client
    without a token, whatever token it held before: [logoff] ran ahead of
    the request. *)
Theorem login_failure_clears_token
    (E : Env) (srv usr key : option string) (w : World) (q : Request)
    (e : exn) :
  wire (snd (login E srv usr key w)) = (wire w ++ [q])%list ->
  fst (login E srv usr key w) = Raise e ->
  _access_token (self (snd (login E srv usr key w))) = PNone.
Proof.
  destruct (login E srv usr key w) as [res w'] eqn:Hrun. cbn [fst snd].
  intros Hwire Hres. enter_login Hrun Hwire o r0.
  clearbody r0. split_run Hrun; injection Hrun as <- <-;
    first [discriminate Hres | reflexivity].
Qed.

Lemma login_failure_clears_token_witness :
  _access_token
    (self (snd (login (Demo.env (Demo.reply 403 "denied"))
                  None None None Demo.logged_in)))
  = PNone.
Proof.
  exact (login_failure_clears_token (Demo.env (Demo.reply 403 "denied"))
           None None None Demo.logged_in
           {| verb := POST; url := "http://x/app/api/login"; params := [];
              data := [("userLogin", PStr "bob"); ("key", PStr "k3y")];
              files := [] |}
           (ValueError
              [PStr "Error during login. Server returned 403. denied"])
           eq_refl eq_refl).
Defined.

(** A 200 reply to [login] that does not hold a token surfaces the error
    of the step that failed: the decoder's when the body is not JSON, a
    [TypeError] when the JSON is not an object, and a [KeyError] naming
    ['access_token'] when the object lacks the field. *)
Theorem login_200_without_token
    (E : Env) (srv usr key : option string) (w : World) (q : Request) :
  wire (snd (login E srv usr key w)) = (wire w ++ [q])%list ->
  status_code (portal E (wire w) q) = 200 ->
  (json_loads E (text (portal E (wire w) q)) = None ->
   fst (login E srv usr key w) = Raise JSONDecodeError)
  /\ (forall v, json_loads E (text (portal E (wire w) q)) = Some v ->
                is_dict v = false ->
                fst (login E srv usr key w) = Raise TypeError)
  /\ (forall d, json_loads E (text (portal E (wire w) q)) = Some (PDict d) ->
                lookup "access_token" d = None ->
                fst (login E srv usr key w) = Raise (KeyError "access_token")).
Proof.
  destruct (login E srv usr key w) as [res w'] eqn:Hrun. cbn [fst snd].
  intros Hwire Hstatus. enter_login Hrun Hwire o r0.
  rewrite Hstatus, Z.eqb_refl in Hrun.
  repeat split.
  - intros Hj. rewrite Hj in Hrun. now injection Hrun as <- _.
  - intros v Hj Hv. rewrite Hj in Hrun. reduce_in Hrun.
    destruct v; try discriminate Hv; now injection Hrun as <- _.
  - intros d Hj Hd. rewrite Hj in Hrun. reduce_in Hrun.
    rewrite Hd in Hrun. now injection Hrun as <- _.
Qed.

Lemma login_200_without_token_witness :
  fst (login (Demo.env (Demo.reply 200 Demo.no_token))
         None None None Demo.fresh)
  = Raise (KeyError "access_token").
Proof.
  exact (proj2 (proj2
           (login_200_without_token (Demo.env (Demo.reply 200 Demo.no_token))
              None None None Demo.fresh
              {| verb := POST; url := "http://x/app/api/login"; params := [];
                 data := [("userLogin", PStr "bob"); ("key", PStr "k3y")];
                 files := [] |}
              eq_refl eq_refl))
           [("user", PStr "bob")] eq_refl eq_refl).
Defined.

(** On a 200 reply whose object has ['access_token'], [login] returns and
    stores the value of the field, whatever it is. *)
Lemma login_200_value
    (E : Env) (srv usr key : option string) (w : World) (q : Request)
    (d : dict) (v : pyval) :
  wire (snd (login E srv usr key w)) = (wire w ++ [q])%list ->
  status_code (portal E (wire w) q) = 200 ->
  json_loads E (text (portal E (wire w) q)) = Some (PDict d) ->
  lookup "access_token" d = Some v ->
  fst (login E srv usr key w) = Return tt
  /\ _access_token (self (snd (login E srv usr key w))) = v.
Proof.
  destruct (login E srv usr key w) as [res w'] eqn:Hrun. cbn [fst snd].
  intros Hwire Hstatus Hj Hd. enter_login Hrun Hwire o r0.
  rewrite Hstatus, Z.eqb_refl, Hj in Hrun. reduce_in Hrun.
  rewrite Hd in Hrun. reduce_in Hrun. now injection Hrun as <- <-.
Qed.

(** A 200 reply whose ['access_token'] is null makes [login] return as if
    it had succeeded, with no token stored: every authenticated call after
    it raises the token error and sends nothing. *)
Theorem login_null_token
    (E : Env) (srv usr key : option string) (w : World) (q : Request)
    (d : dict) :
  wire (snd (login E srv usr key w)) = (wire w ++ [q])%list ->
  status_code (portal E (wire w) q) = 200 ->
  json_loads E (text (portal E (wire w) q)) = Some (PDict d) ->
  lookup "access_token" d = Some PNone ->
  fst (login E srv usr key w) = Return tt
  /\ forall c,
       invoke E c (snd (login E srv usr key w))
       = (Raise (RuntimeError
                   "Access Token not available. Make sure to invoke login first."),
          snd (login E srv usr key w)).
Proof.
  intros Hwire Hstatus Hj Hd.
  destruct (login_200_value E srv usr key w q d PNone Hwire Hstatus Hj Hd)
    as [Hres Htok].
  split; [exact Hres|]. intros c. now apply invoke_without_token.
Qed.

Lemma login_null_token_witness :
  fst (login (Demo.env (Demo.reply 200 Demo.token_null))
         None None None Demo.fresh) = Return tt
  /\ forall c,
       invoke (Demo.env (Demo.reply 200 Demo.token_null)) c
         (snd (login (Demo.env (Demo.reply 200 Demo.token_null))
                 None None None Demo.fresh))
       = (Raise (RuntimeError
                   "Access Token not available. Make sure to invoke login first."),
          snd (login (Demo.env (Demo.reply 200 Demo.token_null))
                 None None None Demo.fresh)).
Proof.
  exact (login_null_token (Demo.env (Demo.reply 200 Demo.token_null))
           None None None Demo.fresh
           {| verb := POST; url := "http://x/app/api/login"; params := [];
              data := [("userLogin", PStr "bob"); ("key", PStr "k3y")];
              files := [] |}
           [("access_token", PNone)] eq_refl eq_refl eq_refl eq_refl).
Defined.

(** [login] does not look at the type of the token: a value of
    ['access_token'] that is not null, a number or a list included, is
    stored as it came and is what the later requests carry. *)
Theorem login_stores_any_value
    (E : Env) (srv usr key : option string) (w : World) (q : Request)
    (d : dict) (v : pyval) (cs : list call) :
  wire (snd (login E srv usr key w)) = (wire w ++ [q])%list ->
  status_code (portal E (wire w) q) = 200 ->
  json_loads E (text (portal E (wire w) q)) = Some (PDict d) ->
  lookup "access_token" d = Some v ->
  is_None v = false ->
  let w' := snd (login E srv usr key w) in
  _access_token (self w') = v
  /\ _access_token (self (run_calls E cs w')) = v
  /\ exists sent, wire (run_calls E cs w') = (wire w' ++ sent)%list
                  /\ Forall (carries_token v) sent.
Proof.
  intros Hwire Hstatus Hj Hd Hv w'.
  destruct (login_200_value E srv usr key w q d v Hwire Hstatus Hj Hd)
    as [_ Htok].
  split; [exact Htok|].
  exact (run_calls_with_token E v cs w' Htok Hv).
Qed.

Lemma login_stores_any_value_witness :
  _access_token
    (self (snd (login (Demo.env (Demo.reply 200 Demo.token_number))
                  None None None Demo.fresh)))
  = PInt 42.
Proof.
  exact (proj1
           (login_stores_any_value
              (Demo.env (Demo.reply 200 Demo.token_number))
              None None None Demo.fresh
              {| verb := POST; url := "http://x/app/api/login"; params := [];
                 data := [("userLogin", PStr "bob"); ("key", PStr "k3y")];
                 files := [] |}
              [("access_token", PInt 42)] (PInt 42) [GetTask "17"]
              eq_refl eq_refl eq_refl eq_refl eq_refl)).
Defined.

Lemma truthy_Some (s : option string) :
  truthy s = true -> exists x, s = Some x /\ x <> "".
Proof.
  destruct s as [[|c t]|]; try discriminate. intros _.
  now exists (String c t).
Qed.

Lemma truthy_of_nonempty (x : string) : x <> "" -> truthy (Some x) = true.
Proof. now destruct x. Qed.

(** What [login] does once the three credentials are in place: it hands
    one request to [requests], and either that request goes on the wire or
    [login] raises the refusal, the token cleared and nothing sent. *)
Lemma login_valid_run (E : Env) (srv usr key : option string) (w : World)
    (server_ login_ key_ : string) :
  let o := self (snd (login_overrides srv usr key w)) in
  _server o = Some server_ -> _login o = Some login_ -> _key o = Some key_ ->
  server_ <> "" -> login_ <> "" -> key_ <> "" ->
  let r := {| verb := POST; url := server_ ++ "/app/api/login";
              params := [];
              data := [("userLogin", PStr login_); ("key", PStr key_)];
              files := [] |} in
  (refuses E r = None ->
   wire (snd (login E srv usr key w)) = (wire w ++ [r])%list)
  /\ (forall e, refuses E r = Some e ->
        login E srv usr key w
        = (Raise e,
           {| self := {| _server := Some server_; _login := Some login_;
                         _key := Some key_; _access_token := PNone |};
              wire := wire w |})).
Proof.
  intros o Es El Ek Hs Hl Hk r. subst o.
  destruct (login E srv usr key w) as [res w'] eqn:Hrun. cbn [snd].
  unfold login in Hrun. unfold bind at 1 in Hrun.
  destruct (login_overrides_run srv usr key w) as (o & Ho & _).
  rewrite Ho in Hrun, Es, El, Ek. cbn [snd self] in Es, El, Ek. clear Ho.
  unfold_monad. rewrite Es, El, Ek in Hrun.
  rewrite !truthy_of_nonempty in Hrun by assumption. reduce_in Hrun.
  cbn [_server _login _key] in Hrun. rewrite ?Es, ?El, ?Ek in Hrun.
  cbn [fstring of_optional] in Hrun.
  fold r in Hrun. clearbody r. split.
  - intros Hacc. rewrite Hacc in Hrun.
    split_run Hrun; injection Hrun as _ <-; reflexivity.
  - intros e Hacc. rewrite Hacc in Hrun. now rewrite <- Hrun.
Qed.

(** With the three credentials in place after the overrides, [login] hands
    one request to [requests] whatever the reply would be: a POST to the
    stored server followed by [/app/api/login] whose form holds [userLogin]
    and [key] and nothing else, so neither an old token nor a query string.
    When [requests] sends it, it is the one request added to the wire; when
    [requests] refuses it, [login] raises the refusal, nothing is sent, and
    the client is left without a token. *)
Theorem login_request
    (E : Env) (srv usr key : option string) (w : World) :
  let o := self (snd (login_overrides srv usr key w)) in
  truthy (_server o) = true -> truthy (_login o) = true ->
  truthy (_key o) = true ->
  exists server_ login_ key_,
    _server o = Some server_ /\ _login o = Some login_ /\ _key o = Some key_
    /\ (refuses E {| verb := POST; url := server_ ++ "/app/api/login";
                     params := [];
                     data := [("userLogin", PStr login_);
                              ("key", PStr key_)];
                     files := [] |} = None ->
        wire (snd (login E srv usr key w))
        = (wire w
           ++ [{| verb := POST; url := server_ ++ "/app/api/login";
                  params := [];
                  data := [("userLogin", PStr login_); ("key", PStr key_)];
                  files := [] |}])%list)
    /\ (forall e,
          refuses E {| verb := POST; url := server_ ++ "/app/api/login";
                       params := [];
                       data := [("userLogin", PStr login_);
                                ("key", PStr key_)];
                       files := [] |} = Some e ->
          fst (login E srv usr key w) = Raise e
          /\ wire (snd (login E srv usr key w)) = wire w
          /\ _access_token (self (snd (login E srv usr key w))) = PNone).
Proof.
  intros o Hs Hl Hk.
  destruct (truthy_Some _ Hs) as (sv & Es & Ns).
  destruct (truthy_Some _ Hl) as (lg & El & Nl).
  destruct (truthy_Some _ Hk) as (ky & Ek & Nk).
  exists sv, lg, ky. repeat split; try assumption.
  - exact (proj1 (login_valid_run E srv usr key w sv lg ky
                    Es El Ek Ns Nl Nk)).
  - now rewrite (proj2 (login_valid_run E srv usr key w sv lg ky
                          Es El Ek Ns Nl Nk) e).
  - now rewrite (proj2 (login_valid_run E srv usr key w sv lg ky
                          Es El Ek Ns Nl Nk) e).
  - now rewrite (proj2 (login_valid_run E srv usr key w sv lg ky
                          Es El Ek Ns Nl Nk) e).
Qed.

Lemma login_request_witness :
  wire (snd (login (Demo.env (Demo.reply 403 "denied"))
               (Some "http://y/") None None Demo.logged_in))
  = [{| verb := POST; url := "http://y/app/api/login"; params := [];
        data := [("userLogin", PStr "bob"); ("key", PStr "k3y")];
        files := [] |}]
  /\ (fst (login (Demo.env (Demo.reply 200 Demo.token_T))
             (Some "portal.local") None None Demo.logged_in)
      = Raise MissingSchema
      /\ wire (snd (login (Demo.env (Demo.reply 200 Demo.token_T))
                      (Some "portal.local") None None Demo.logged_in))
         = []
      /\ _access_token
           (self (snd (login (Demo.env (Demo.reply 200 Demo.token_T))
                         (Some "portal.local") None None Demo.logged_in)))
         = PNone).
Proof.
  split.
  - destruct (login_request (Demo.env (Demo.reply 403 "denied"))
                (Some "http://y/") None None Demo.logged_in
                eq_refl eq_refl eq_refl)
      as (sv & lg & ky & Es & El & Ek & Hsent & _).
    injection Es as <-. injection El as <-. injection Ek as <-.
    exact (Hsent eq_refl).
  - destruct (login_request (Demo.env (Demo.reply 200 Demo.token_T))
                (Some "portal.local") None None Demo.logged_in
                eq_refl eq_refl eq_refl)
      as (sv & lg & ky & Es & El & Ek & _ & Hrefused).
    injection Es as <-. injection El as <-. injection Ek as <-.
    exact (Hrefused MissingSchema eq_refl).
Defined.

(** The token held before [login] has no part in it: on two clients that
    differ in the token only, [login] ends the same way and leaves the same
    wire, and when it reached the portal it leaves the same client. *)
Theorem login_ignores_previous_token
    (E : Env) (srv usr key : option string) (w : World) (token : pyval) :
  let w2 := {| self := {| _server := _server (self w);
                          _login := _login (self w);
                          _key := _key (self w);
                          _access_token := token |};
               wire := wire w |} in
  fst (login E srv usr key w2) = fst (login E srv usr key w)
  /\ wire (snd (login E srv usr key w2)) = wire (snd (login E srv usr key w))
  /\ (wire (snd (login E srv usr key w)) <> wire w ->
      login E srv usr key w2 = login E srv usr key w).
Proof.
  intros w2. subst w2.
  unfold login, login_overrides, server_setter. unfold_monad.
  destruct (truthy srv);
    cbn beta iota zeta delta [fst snd self wire _server _login _key
                              _access_token].
  all: repeat match goal with
         | |- context [if negb (truthy ?x) then _ else _] =>
             destruct (truthy x);
             cbn beta iota zeta delta [fst snd self wire _server _login _key
                                       _access_token negb]
         end.
  all: repeat split; try reflexivity; intros H; now destruct H.
Qed.

Lemma login_ignores_previous_token_witness :
  login (Demo.env (Demo.reply 200 Demo.token_T)) None None None Demo.logged_in
  = login (Demo.env (Demo.reply 200 Demo.token_T)) None None None Demo.fresh.
Proof.
  refine (proj2 (proj2 (login_ignores_previous_token
                          (Demo.env (Demo.reply 200 Demo.token_T))
                          None None None Demo.fresh (PStr "T"))) _).
  vm_compute. discriminate.
Defined.

(** The address the setter stores is empty exactly when the one assigned
    is [None], empty, or the single slash. *)
Lemma stored_server_truthy (s : option string) (w : World) :
  truthy (_server (self (snd (server_setter s w))))
  = truthy s && negb match s with
                     | Some t => String.eqb t "/"
                     | None => false
                     end.
Proof.
  destruct s as [t|]; [|reflexivity].
  destruct (last_split t) as [->|(a & c & ->)]; [reflexivity|].
  destruct (Ascii.eqb_spec c "/") as [->|Hc].
  - rewrite server_setter_slash. cbn [snd self _server].
    rewrite truthy_nonempty. destruct a as [|x a]; [reflexivity|].
    simpl. destruct (Ascii.eqb x "/"); [now destruct a | reflexivity].
  - unfold server_setter. rewrite truthy_nonempty, getitem_last.
    destruct (Ascii.eqb_spec c "/") as [->|_]; [contradiction|].
    unfold_monad. cbn [_server andb]. rewrite truthy_nonempty.
    destruct (String.eqb_spec (a ++ String c "") "/") as [Heq|_];
      [|reflexivity].
    destruct a as [|x a]; [injection Heq as ->; contradiction|].
    now destruct a.
Qed.

(** The constructor followed by [login()] without arguments.  Given a
    login, a key and a server that are not empty, the server being more than
    a single slash, [login] hands [requests] the login request for the stored
    server: it goes on the wire, or [login] raises the refusal of [requests]
    and nothing is sent.  Otherwise [login] raises the [ValueError] naming the
    first missing field, in the order server, login, key, and nothing is
    sent.  A server ['/'] counts as missing: the setter stores it as the
    empty string. *)
Theorem constructor_then_login
    (E : Env) (server_ login_ key_ : option string) (w : World) :
  let w0 := snd (__init__ server_ login_ key_ w) in
  let valid_server :=
    truthy server_ && negb match server_ with
                           | Some t => String.eqb t "/"
                           | None => false
                           end in
  (valid_server = true -> truthy login_ = true -> truthy key_ = true ->
   exists stored lg ky,
     _server (self w0) = Some stored /\ login_ = Some lg /\ key_ = Some ky
     /\ (refuses E {| verb := POST; url := stored ++ "/app/api/login";
                      params := [];
                      data := [("userLogin", PStr lg); ("key", PStr ky)];
                      files := [] |} = None ->
         wire (snd (login E None None None w0))
         = (wire w
            ++ [{| verb := POST; url := stored ++ "/app/api/login";
                   params := [];
                   data := [("userLogin", PStr lg); ("key", PStr ky)];
                   files := [] |}])%list)
     /\ (forall e,
           refuses E {| verb := POST; url := stored ++ "/app/api/login";
                        params := [];
                        data := [("userLogin", PStr lg); ("key", PStr ky)];
                        files := [] |} = Some e ->
           fst (login E None None None w0) = Raise e
           /\ wire (snd (login E None None None w0)) = wire w))
  /\ (valid_server = false ->
      fst (login E None None None w0)
      = Raise (ValueError [PStr "Server is required."])
      /\ wire (snd (login E None None None w0)) = wire w)
  /\ (valid_server = true -> truthy login_ = false ->
      fst (login E None None None w0)
      = Raise (ValueError [PStr "Login is required."])
      /\ wire (snd (login E None None None w0)) = wire w)
  /\ (valid_server = true -> truthy login_ = true -> truthy key_ = false ->
      fst (login E None None None w0)
      = Raise (ValueError [PStr "Key is required."])
      /\ wire (snd (login E None None None w0)) = wire w).
Proof.
  intros w0 valid_server.
  assert (Hsrv : truthy (_server (self (snd (login_overrides None None None w0))))
                 = valid_server).
  { subst w0 valid_server. unfold __init__, bind, put_self.
    unfold login_overrides. unfold_monad. cbn [truthy _server].
    match goal with |- context [server_setter server_ ?w1] =>
      exact (stored_server_truthy server_ w1) end. }
  assert (Hsame : _server (self (snd (login_overrides None None None w0)))
                  = _server (self w0)) by reflexivity.
  assert (Hlog : _login (self (snd (login_overrides None None None w0)))
                 = login_) by (subst w0; now destruct server_).
  assert (Hkey : _key (self (snd (login_overrides None None None w0)))
                 = key_) by (subst w0; now destruct server_).
  assert (Hwire : wire w0 = wire w) by reflexivity.
  destruct (login_invalid E None None None w0) as (Is & Il & Ik & Iw & _).
  rewrite Hsrv, Hlog, Hkey in *.
  split; [|split; [|split]].
  - intros Hs Hl Hk.
    assert (Hs' : truthy (_server (self w0)) = true)
      by (now rewrite <- Hsame, Hsrv).
    destruct (truthy_Some _ Hs') as (sv & Es & Ns).
    destruct (truthy_Some _ Hl) as (lg & El & Nl).
    destruct (truthy_Some _ Hk) as (ky & Ek & Nk).
    exists sv, lg, ky. split; [exact Es|]. split; [exact El|].
    split; [exact Ek|].
    assert (Es2 : _server (self (snd (login_overrides None None None w0)))
                  = Some sv) by (now rewrite Hsame).
    assert (El2 : _login (self (snd (login_overrides None None None w0)))
                  = Some lg) by (now rewrite Hlog).
    assert (Ek2 : _key (self (snd (login_overrides None None None w0)))
                  = Some ky) by (now rewrite Hkey).
    destruct (login_valid_run E None None None w0 sv lg ky
                Es2 El2 Ek2 Ns Nl Nk) as [Hsent Hrefused].
    split.
    + intros Hacc. rewrite <- Hwire. exact (Hsent Hacc).
    + intros e Hacc. rewrite (Hrefused e Hacc). now split.
  - intros Hs. rewrite (Is Hs). cbn [fst snd]. now rewrite Iw.
  - intros Hs Hl. rewrite (Il Hs Hl). cbn [fst snd]. now rewrite Iw.
  - intros Hs Hl Hk. rewrite (Ik Hs Hl Hk). cbn [fst snd]. now rewrite Iw.
Qed.

Lemma constructor_then_login_witness :
  (fst (login (Demo.env (Demo.reply 200 Demo.token_T)) None None None
          (snd (__init__ (Some "/") (Some "bob") (Some "k3y") Demo.fresh)))
   = Raise (ValueError [PStr "Server is required."])
   /\ wire (snd (login (Demo.env (Demo.reply 200 Demo.token_T))
                   None None None
                   (snd (__init__ (Some "/") (Some "bob") (Some "k3y")
                           Demo.fresh))))
      = [])
  /\ (fst (login (Demo.env (Demo.reply 200 Demo.token_T)) None None None
             (snd (__init__ (Some "portal.local/") (Some "bob") (Some "k3y")
                     Demo.fresh)))
      = Raise MissingSchema
      /\ wire (snd (login (Demo.env (Demo.reply 200 Demo.token_T))
                      None None None
                      (snd (__init__ (Some "portal.local/") (Some "bob")
                              (Some "k3y") Demo.fresh))))
         = []).
Proof.
  split.
  - exact (proj1 (proj2 (constructor_then_login
                           (Demo.env (Demo.reply 200 Demo.token_T))
                           (Some "/") (Some "bob") (Some "k3y") Demo.fresh))
             eq_refl).
  - destruct (proj1 (constructor_then_login
                       (Demo.env (Demo.reply 200 Demo.token_T))
                       (Some "portal.local/") (Some "bob") (Some "k3y")
                       Demo.fresh) eq_refl eq_refl eq_refl)
      as (sv & lg & ky & Es & El & Ek & _ & Hrefused).
    injection Es as <-. injection El as <-. injection Ek as <-.
    exact (Hrefused MissingSchema eq_refl).
Defined.

(** ** The error of a reply other than 200, method by method *)

(** Every operation but [alert], on a reply other than 200 whose body is a
    JSON object, raises a [ValueError] with the one message ['Error during
    <name>. Server returned <status>. <message>'], where the message is the
    object's ['message'] field and is empty when the object has none. *)
Theorem request_error_from_object
    (E : Env) (c : call) (w : World) (q : Request) (what : string)
    (d : dict) :
  what_of c = Some what ->
  wire (snd (invoke E c w)) = (wire w ++ [q])%list ->
  status_code (portal E (wire w) q) <> 200 ->
  json_loads E (text (portal E (wire w) q)) = Some (PDict d) ->
  fst (invoke E c w)
  = Raise (ValueError
             [PStr ("Error during " ++ what ++ ". Server returned "
                    ++ percent_d (status_code (portal E (wire w) q)) ++ ". "
                    ++ percent_s E match lookup "message" d with
                                   | Some m => m
                                   | None => PStr ""
                                   end)]).
Proof.
  destruct (invoke E c w) as [res w'] eqn:Hrun. cbn [fst snd].
  intros Hwhat Hwire Hstatus Hj. apply Z.eqb_neq in Hstatus.
  destruct c; try discriminate Hwhat; injection Hwhat as <-;
    unfold invoke in Hrun.
  all: enter_method Hrun Hwire r0.
  all: rewrite Hstatus, Hj in Hrun; reduce_in Hrun.
  all: now injection Hrun as <- _.
Qed.

Lemma request_error_from_object_witness :
  fst (invoke (Demo.env (Demo.reply 404 Demo.bad_thing))
         (Message ["a@x"; "b@x"] [] "subject" "body" (PStr "TEXT") "ops")
         Demo.logged_in)
  = Raise (ValueError
             [PStr "Error during message. Server returned 404. bad thing"]).
Proof.
  refine (request_error_from_object
            (Demo.env (Demo.reply 404 Demo.bad_thing))
            (Message ["a@x"; "b@x"] [] "subject" "body" (PStr "TEXT") "ops")
            Demo.logged_in
            {| verb := POST; url := "http://x/app/api/message/send";
               params := [];
               data := [("email", PStr "a@x,b@x"); ("users", PStr "");
                        ("subject", PStr "subject"); ("body", PStr "body");
                        ("type", PStr "TEXT"); ("group", PStr "ops");
                        ("access_token", PStr "T")];
               files := [] |}
            "message" [("message", PStr "bad thing")]
            eq_refl eq_refl _ eq_refl).
  vm_compute. discriminate.
Defined.

(** The ten operations with the [except] clause, on a reply other than 200
    whose body is not JSON, raise the same [ValueError] with the raw body in
    place of the message. *)
Theorem request_error_raw_body
    (E : Env) (c : call) (w : World) (q : Request) (what : string) :
  has_fallback c = true -> what_of c = Some what ->
  wire (snd (invoke E c w)) = (wire w ++ [q])%list ->
  status_code (portal E (wire w) q) <> 200 ->
  json_loads E (text (portal E (wire w) q)) = None ->
  fst (invoke E c w)
  = Raise (ValueError
             [PStr ("Error during " ++ what ++ ". Server returned "
                    ++ percent_d (status_code (portal E (wire w) q)) ++ ". "
                    ++ text (portal E (wire w) q))]).
Proof.
  destruct (invoke E c w) as [res w'] eqn:Hrun. cbn [fst snd].
  intros Hfb Hwhat Hwire Hstatus Hj. apply Z.eqb_neq in Hstatus.
  destruct c; try discriminate Hfb; injection Hwhat as <-;
    unfold invoke in Hrun.
  all: enter_method Hrun Hwire r0.
  all: rewrite Hstatus, Hj in Hrun; reduce_in Hrun.
  all: now injection Hrun as <- _.
Qed.

Lemma request_error_raw_body_witness :
  fst (invoke (Demo.env (Demo.reply 502 "Bad Gateway"))
         (GetArtifact 7) Demo.logged_in)
  = Raise (ValueError
             [PStr "Error during artifact get. Server returned 502. Bad Gateway"]).
Proof.
  refine (request_error_raw_body (Demo.env (Demo.reply 502 "Bad Gateway"))
            (GetArtifact 7) Demo.logged_in
            {| verb := GET; url := "http://x/app/api/artifact/get";
               params := [("id", PInt 7); ("access_token", PStr "T")];
               data := []; files := [] |}
            "artifact get" eq_refl eq_refl eq_refl _ eq_refl).
  vm_compute. discriminate.
Defined.

(** Every operation but [alert], on a reply other than 200 whose body is
    JSON and not an object (a list, a string, a number, null), lets the
    [AttributeError] of the missing [get] escape: the [except] clause
    catches [ValueError] only. *)
Theorem request_error_not_object
    (E : Env) (c : call) (w : World) (q : Request) (what : string)
    (v : pyval) :
  what_of c = Some what ->
  wire (snd (invoke E c w)) = (wire w ++ [q])%list ->
  status_code (portal E (wire w) q) <> 200 ->
  json_loads E (text (portal E (wire w) q)) = Some v ->
  is_dict v = false ->
  fst (invoke E c w) = Raise AttributeError.
Proof.
  destruct (invoke E c w) as [res w'] eqn:Hrun. cbn [fst snd].
  intros Hwhat Hwire Hstatus Hj Hv. apply Z.eqb_neq in Hstatus.
  destruct c; try discriminate Hwhat; unfold invoke in Hrun.
  all: enter_method Hrun Hwire r0.
  all: rewrite Hstatus, Hj in Hrun; reduce_in Hrun.
  all: destruct v; try discriminate Hv; reduce_in Hrun.
  all: now injection Hrun as <- _.
Qed.

Lemma request_error_not_object_witness :
  fst (invoke (Demo.env (Demo.reply 500 "[1]"))
         (DeleteLog "invoices") Demo.logged_in)
  = Raise AttributeError.
Proof.
  refine (request_error_not_object (Demo.env (Demo.reply 500 "[1]"))
            (DeleteLog "invoices") Demo.logged_in
            {| verb := POST; url := "http://x/app/api/log/delete";
               params := [];
               data := [("activityLabel", PStr "invoices");
                        ("access_token", PStr "T")];
               files := [] |}
            "log delete" (PList [PInt 1]) eq_refl eq_refl _ eq_refl eq_refl).
  vm_compute. discriminate.
Defined.

Lemma message_error_without_fallback_witness :
  fst (message (Demo.env (Demo.reply 502 "Bad Gateway"))
         ["a@x"] ["bob"] "subject" "body" (PStr "TEXT") "ops" Demo.logged_in)
  = Raise JSONDecodeError.
Proof.
  pose (E := Demo.env (Demo.reply 502 "Bad Gateway")).
  pose (run := message E ["a@x"] ["bob"] "subject" "body" (PStr "TEXT") "ops"
                 Demo.logged_in).
  refine (message_error_without_fallback E
            ["a@x"] ["bob"] "subject" "body" (PStr "TEXT") "ops"
            Demo.logged_in (snd run) (fst run)
            {| verb := POST; url := "http://x/app/api/message/send";
               params := [];
               data := [("email", PStr "a@x"); ("users", PStr "bob");
                        ("subject", PStr "subject"); ("body", PStr "body");
                        ("type", PStr "TEXT"); ("group", PStr "ops");
                        ("access_token", PStr "T")];
               files := [] |}
            eq_refl eq_refl _ eq_refl).
  vm_compute. discriminate.
Defined.

Lemma invoke_other_than_200_raises_witness :
  exists e,
    fst (invoke (Demo.env (Demo.reply 204 ""))
           (FinishTask "17" (PStr "SUCCESS") "done") Demo.logged_in)
    = Raise e.
Proof.
  pose (E := Demo.env (Demo.reply 204 "")).
  pose (run := invoke E (FinishTask "17" (PStr "SUCCESS") "done")
                 Demo.logged_in).
  refine (invoke_other_than_200_raises E
            (FinishTask "17" (PStr "SUCCESS") "done")
            Demo.logged_in (snd run) (fst run)
            {| verb := POST; url := "http://x/app/api/task/finish";
               params := [];
               data := [("taskId", PStr "17"); ("finishStatus", PStr "SUCCESS");
                        ("finishMessage", PStr "done");
                        ("processedItems", PStr "1");
                        ("access_token", PStr "T")];
               files := [] |}
            eq_refl eq_refl _).
  vm_compute. discriminate.
Defined.

(** ** The artifact's file name at its edges *)

(** [s[-1:]] is the last character. *)
Lemma slice_last (a : string) (c : ascii) :
  slice (a ++ String c "") (Some (-1)) None = String c "".
Proof.
  unfold slice, clamp. rewrite len_app, len_String. change (len "") with 0.
  pose proof (len_nonneg a). change (-1 <? 0) with true. cbv iota.
  replace (Z.max 0 (-1 + (len a + (0 + 1)))) with (len a) by lia.
  replace (Z.to_nat (len a + (0 + 1)))
    with (String.length (a ++ String c ""))
    by (rewrite length_app; unfold len; simpl; lia).
  rewrite take_all. unfold len. rewrite Nat2Z.id. apply drop_app.
Qed.

(** The first slice of [artifact_filename] on a quoted name. *)
Lemma quoted_name_slice (pre fname : string) :
  contains "=" fname = false ->
  slice (pre ++ "=" ++ quoted fname)
    (Some (rfind "=" (pre ++ "=" ++ quoted fname) + 2)) (Some (-1))
  = fname.
Proof.
  intros Heq. unfold quoted.
  replace (rfind "=" (pre ++ "=" ++ String dq (fname ++ String dq "")))
    with (len pre)
    by (symmetry; apply rfind_last; simpl;
        rewrite contains_app, Heq; reflexivity).
  replace (len pre + 2) with (len (pre ++ String "=" (String dq "")))
    by (rewrite len_app, !len_String; change (len "") with 0; lia).
  replace (pre ++ "=" ++ String dq (fname ++ String dq ""))
    with ((pre ++ String "=" (String dq "")) ++ fname ++ String dq "")
    by (rewrite app_assoc; reflexivity).
  apply slice_middle.
Qed.

(** What [get_artifact] returns on a 200 reply with the header. *)
Lemma get_artifact_200
    (E : Env) (artifact_id : Z) (w : World) (q : Request) (h : string) :
  wire (snd (get_artifact E artifact_id w)) = (wire w ++ [q])%list ->
  status_code (portal E (wire w) q) = 200 ->
  headers (portal E (wire w) q) "Content-Disposition" = Some h ->
  fst (get_artifact E artifact_id w)
  = Return (artifact_filename h, content (portal E (wire w) q)).
Proof.
  destruct (get_artifact E artifact_id w) as [res w'] eqn:Hrun.
  cbn [fst snd]. intros Hwire Hstatus Hhead.
  unfold get_artifact in Hrun. enter_method Hrun Hwire r0.
  rewrite Hstatus, Z.eqb_refl, Hhead in Hrun. reduce_in Hrun.
  now injection Hrun as <- _.
Qed.

(** A 200 reply to [get_artifact] without a [Content-Disposition] header
    raises a [KeyError]; the body is not returned. *)
Theorem get_artifact_missing_header
    (E : Env) (artifact_id : Z) (w : World) (q : Request) :
  wire (snd (get_artifact E artifact_id w)) = (wire w ++ [q])%list ->
  status_code (portal E (wire w) q) = 200 ->
  headers (portal E (wire w) q) "Content-Disposition" = None ->
  exists key, fst (get_artifact E artifact_id w) = Raise (KeyError key).
Proof.
  destruct (get_artifact E artifact_id w) as [res w'] eqn:Hrun.
  cbn [fst snd]. intros Hwire Hstatus Hhead.
  unfold get_artifact in Hrun. enter_method Hrun Hwire r0.
  rewrite Hstatus, Z.eqb_refl, Hhead in Hrun. reduce_in Hrun.
  injection Hrun as <- _. now eexists.
Qed.

Lemma get_artifact_missing_header_witness :
  exists key,
    fst (get_artifact (Demo.env (Demo.reply 200 "")) 7 Demo.logged_in)
    = Raise (KeyError key).
Proof.
  exact (get_artifact_missing_header (Demo.env (Demo.reply 200 "")) 7
           Demo.logged_in
           {| verb := GET; url := "http://x/app/api/artifact/get";
              params := [("id", PInt 7); ("access_token", PStr "T")];
              data := []; files := [] |}
           eq_refl eq_refl eq_refl).
Defined.

(** A quoted name with a dot and no underscore comes back without its
    last character and with its extension appended: [rfind('_')] is [-1],
    so the first part is the name up to its last character. *)
Theorem get_artifact_name_without_underscore
    (E : Env) (artifact_id : Z) (w : World) (q : Request)
    (pre fname body stem ext : string) (c : ascii) :
  wire (snd (get_artifact E artifact_id w)) = (wire w ++ [q])%list ->
  status_code (portal E (wire w) q) = 200 ->
  headers (portal E (wire w) q) "Content-Disposition"
    = Some (pre ++ "=" ++ quoted fname) ->
  contains "=" fname = false -> contains "_" fname = false ->
  fname = body ++ String c "" ->
  fname = stem ++ "." ++ ext -> contains "." ext = false ->
  fst (get_artifact E artifact_id w)
  = Return (body ++ "." ++ ext, content (portal E (wire w) q)).
Proof.
  intros Hwire Hstatus Hhead Heq Hund Hbody Hstem Hext.
  rewrite (get_artifact_200 E artifact_id w q _ Hwire Hstatus Hhead).
  do 2 f_equal. unfold artifact_filename.
  rewrite (quoted_name_slice pre fname Heq).
  rewrite (rfind_absent _ _ Hund). f_equal.
  - rewrite Hbody. apply slice_drop_last.
  - rewrite Hstem. change (stem ++ "." ++ ext) with (stem ++ String "." ext).
    rewrite rfind_last by assumption. apply slice_suffix.
Qed.

Lemma get_artifact_name_without_underscore_witness :
  fst (get_artifact
         (Demo.env (Demo.artifact_reply Demo.disposition_no_underscore
                      Demo.pdf_bytes))
         7 Demo.logged_in)
  = Return ("report.pd.pdf", Demo.pdf_bytes).
Proof.
  exact (get_artifact_name_without_underscore
           (Demo.env (Demo.artifact_reply Demo.disposition_no_underscore
                        Demo.pdf_bytes))
           7 Demo.logged_in
           {| verb := GET; url := "http://x/app/api/artifact/get";
              params := [("id", PInt 7); ("access_token", PStr "T")];
              data := []; files := [] |}
           "attachment; filename" "report.pdf" "report.pd" "report" "pdf" "f"
           eq_refl eq_refl eq_refl eq_refl eq_refl eq_refl eq_refl eq_refl).
Defined.

(** A quoted name without a dot gets its last character in place of an
    extension, [rfind('.')] being [-1]: after the part before the last
    underscore when there is one, and otherwise, the first part being the
    name without that character, the name comes back unchanged. *)
Theorem get_artifact_name_without_dot
    (E : Env) (artifact_id : Z) (w : World) (q : Request)
    (pre fname body : string) (c : ascii) :
  wire (snd (get_artifact E artifact_id w)) = (wire w ++ [q])%list ->
  status_code (portal E (wire w) q) = 200 ->
  headers (portal E (wire w) q) "Content-Disposition"
    = Some (pre ++ "=" ++ quoted fname) ->
  contains "=" fname = false -> contains "." fname = false ->
  fname = body ++ String c "" ->
  (forall base mid,
      fname = base ++ "_" ++ mid -> contains "_" mid = false ->
      fst (get_artifact E artifact_id w)
      = Return (base ++ String c "", content (portal E (wire w) q)))
  /\ (contains "_" fname = false ->
      fst (get_artifact E artifact_id w)
      = Return (fname, content (portal E (wire w) q))).
Proof.
  intros Hwire Hstatus Hhead Heq Hdot Hbody.
  rewrite (get_artifact_200 E artifact_id w q _ Hwire Hstatus Hhead).
  unfold artifact_filename.
  rewrite (quoted_name_slice pre fname Heq).
  rewrite (rfind_absent "." _ Hdot).
  assert (Hlast : slice fname (Some (-1)) None = String c "")
    by (rewrite Hbody; apply slice_last).
  rewrite Hlast. split.
  - intros base mid Hbase Hmid. do 2 f_equal.
    rewrite Hbase at 1 2.
    change (base ++ "_" ++ mid) with (base ++ String "_" mid).
    rewrite rfind_last by assumption. now rewrite slice_prefix.
  - intros Hund. do 2 f_equal. rewrite (rfind_absent _ _ Hund).
    rewrite Hbody at 1. rewrite slice_drop_last. now rewrite Hbody.
Qed.

Lemma get_artifact_name_without_dot_witness :
  fst (get_artifact
         (Demo.env (Demo.artifact_reply Demo.disposition_no_dot
                      Demo.pdf_bytes))
         7 Demo.logged_in)
  = Return ("report1", Demo.pdf_bytes)
  /\ fst (get_artifact
            (Demo.env (Demo.artifact_reply Demo.disposition_plain
                         Demo.pdf_bytes))
            7 Demo.logged_in)
     = Return ("report", Demo.pdf_bytes).
Proof.
  pose (q := {| verb := GET; url := "http://x/app/api/artifact/get";
                params := [("id", PInt 7); ("access_token", PStr "T")];
                data := []; files := [] |}).
  split.
  - exact (proj1 (get_artifact_name_without_dot
                    (Demo.env (Demo.artifact_reply Demo.disposition_no_dot
                                 Demo.pdf_bytes))
                    7 Demo.logged_in q
                    "attachment; filename" "report_20240101" "report_2024010"
                    "1" eq_refl eq_refl eq_refl eq_refl eq_refl eq_refl)
             "report" "20240101" eq_refl eq_refl).
  - exact (proj2 (get_artifact_name_without_dot
                    (Demo.env (Demo.artifact_reply Demo.disposition_plain
                                 Demo.pdf_bytes))
                    7 Demo.logged_in q
                    "attachment; filename" "report" "repor" "t"
                    eq_refl eq_refl eq_refl eq_refl eq_refl eq_refl)
             eq_refl).
Defined.

(** ** Reading a log at its edges *)

(** The comprehension over entries: it returns when every entry is an
    object and raises at the first one that is not. *)
Lemma mapM_columns (f : pyval -> M pyval) (items : list pyval) (w : World) :
  (forall x w0, f x w0 = (if is_dict x then Return (columns_of x)
                          else Raise AttributeError, w0)) ->
  mapM f items w
  = (if forallb is_dict items then Return (map columns_of items)
     else Raise AttributeError, w).
Proof.
  intros Hf. induction items as [|x rest IH]; [reflexivity|].
  simpl. unfold bind. rewrite Hf.
  destruct (is_dict x); [|reflexivity].
  rewrite IH. simpl. now destruct (forallb is_dict rest).
Qed.

(** Entering [get_log] on a 200 reply whose body is an object with a
    string under ['message'] that is JSON text for [parsed]. *)
Ltac enter_get_log Hrun Hwire Hstatus Hj Hm Hp r0 :=
  unfold get_log in Hrun; enter_method Hrun Hwire r0;
  rewrite Hstatus, Z.eqb_refl, Hj in Hrun; reduce_in Hrun;
  rewrite Hm in Hrun; reduce_in Hrun;
  rewrite Hp in Hrun; reduce_in Hrun.

(** On a 200 reply whose ['message'] is the text of an array, [get_log]
    returns exactly when every entry of the array is an object, with one row
    per entry in the order of the array; one entry that is not an object
    makes the whole call raise [AttributeError]. *)
Theorem get_log_returns_iff_objects
    (E : Env) (activity_label : string) (date : option string)
    (w : World) (q : Request) (d : dict) (m : string) (items : list pyval) :
  wire (snd (get_log E activity_label date w)) = (wire w ++ [q])%list ->
  status_code (portal E (wire w) q) = 200 ->
  json_loads E (text (portal E (wire w) q)) = Some (PDict d) ->
  lookup "message" d = Some (PStr m) ->
  json_loads E m = Some (PList items) ->
  fst (get_log E activity_label date w)
  = if forallb is_dict items then Return (map columns_of items)
    else Raise AttributeError.
Proof.
  destruct (get_log E activity_label date w) as [res w'] eqn:Hrun.
  cbn [fst snd]. intros Hwire Hstatus Hj Hm Hp.
  enter_get_log Hrun Hwire Hstatus Hj Hm Hp r0.
  rewrite mapM_columns in Hrun by (intros [] ?; reflexivity).
  now injection Hrun as <- _.
Qed.

Lemma get_log_returns_iff_objects_witness :
  fst (get_log (Demo.env (Demo.reply 200 Demo.log_body_mixed))
         "invoices" None Demo.logged_in)
  = Raise AttributeError.
Proof.
  exact (get_log_returns_iff_objects
           (Demo.env (Demo.reply 200 Demo.log_body_mixed))
           "invoices" None Demo.logged_in
           {| verb := GET; url := "http://x/app/api/log/read";
              params := [("activityLabel", PStr "invoices");
                         ("date", PNone); ("access_token", PStr "T")];
              data := []; files := [] |}
           [("message",
             PStr (String.concat "" ["[{"; quoted "columns"; ":7},1]"]))]
           _ [PDict [("columns", PInt 7)]; PInt 1]
           eq_refl eq_refl eq_refl eq_refl eq_refl).
Defined.

(** A 200 reply to [get_log] that is not what the method expects surfaces
    the error of the step that failed: the decoder's when the body, or the
    text under ['message'], is not JSON; a [TypeError] when the body is JSON
    and not an object, or ['message'] is not a string; a [KeyError] naming
    ['message'] when the object lacks the field. *)
Theorem get_log_200_malformed
    (E : Env) (activity_label : string) (date : option string)
    (w : World) (q : Request) :
  wire (snd (get_log E activity_label date w)) = (wire w ++ [q])%list ->
  status_code (portal E (wire w) q) = 200 ->
  (json_loads E (text (portal E (wire w) q)) = None ->
   fst (get_log E activity_label date w) = Raise JSONDecodeError)
  /\ (forall v, json_loads E (text (portal E (wire w) q)) = Some v ->
                is_dict v = false ->
                fst (get_log E activity_label date w) = Raise TypeError)
  /\ (forall d, json_loads E (text (portal E (wire w) q)) = Some (PDict d) ->
        (lookup "message" d = None ->
         fst (get_log E activity_label date w) = Raise (KeyError "message"))
        /\ (forall v, lookup "message" d = Some v ->
                      (forall m, v <> PStr m) ->
                      fst (get_log E activity_label date w) = Raise TypeError)
        /\ (forall m, lookup "message" d = Some (PStr m) ->
                      json_loads E m = None ->
                      fst (get_log E activity_label date w)
                      = Raise JSONDecodeError)).
Proof.
  destruct (get_log E activity_label date w) as [res w'] eqn:Hrun.
  cbn [fst snd]. intros Hwire Hstatus.
  unfold get_log in Hrun. enter_method Hrun Hwire r0.
  rewrite Hstatus, Z.eqb_refl in Hrun.
  split; [|split].
  - intros Hj. rewrite Hj in Hrun. now injection Hrun as <- _.
  - intros v Hj Hv. rewrite Hj in Hrun. reduce_in Hrun.
    destruct v; try discriminate Hv; now injection Hrun as <- _.
  - intros d Hj. rewrite Hj in Hrun. reduce_in Hrun. split; [|split].
    + intros Hm. rewrite Hm in Hrun. now injection Hrun as <- _.
    + intros v Hm Hv. rewrite Hm in Hrun. reduce_in Hrun.
      destruct v; try (now injection Hrun as <- _).
      now destruct (Hv s).
    + intros m Hm Hp. rewrite Hm in Hrun. reduce_in Hrun.
      rewrite Hp in Hrun. now injection Hrun as <- _.
Qed.

Lemma get_log_200_malformed_witness :
  fst (get_log (Demo.env (Demo.reply 200 Demo.no_token))
         "invoices" None Demo.logged_in)
  = Raise (KeyError "message").
Proof.
  exact (proj1 (proj2 (proj2
           (get_log_200_malformed (Demo.env (Demo.reply 200 Demo.no_token))
              "invoices" None Demo.logged_in
              {| verb := GET; url := "http://x/app/api/log/read";
                 params := [("activityLabel", PStr "invoices");
                            ("date", PNone); ("access_token", PStr "T")];
                 data := []; files := [] |}
              eq_refl eq_refl))
           [("user", PStr "bob")] eq_refl) eq_refl).
Defined.

(** When the text under ['message'] is JSON and not an array, the loop
    runs over whatever it is: an empty object or an empty string gives the
    empty list, an object with a key or a string with a character raises
    [AttributeError] at the key or the character, and a number, a boolean or
    null raises [TypeError]. *)
Theorem get_log_message_not_array
    (E : Env) (activity_label : string) (date : option string)
    (w : World) (q : Request) (d : dict) (m : string) (parsed : pyval) :
  wire (snd (get_log E activity_label date w)) = (wire w ++ [q])%list ->
  status_code (portal E (wire w) q) = 200 ->
  json_loads E (text (portal E (wire w) q)) = Some (PDict d) ->
  lookup "message" d = Some (PStr m) ->
  json_loads E m = Some parsed ->
  (forall items, parsed <> PList items) ->
  fst (get_log E activity_label date w)
  = match parsed with
    | PDict [] | PStr "" => Return []
    | PDict _ | PStr _ => Raise AttributeError
    | _ => Raise TypeError
    end.
Proof.
  destruct (get_log E activity_label date w) as [res w'] eqn:Hrun.
  cbn [fst snd]. intros Hwire Hstatus Hj Hm Hp Hlist.
  enter_get_log Hrun Hwire Hstatus Hj Hm Hp r0.
  destruct parsed as [| | | |s|items|[|[k v] kvs]];
    try (now destruct (Hlist items)); reduce_in Hrun;
    try (now injection Hrun as <- _).
  destruct s; cbn [chars mapM] in Hrun; unfold bind, ret in Hrun;
    reduce_in Hrun; now injection Hrun as <- _.
Qed.

Lemma get_log_message_not_array_witness :
  fst (get_log (Demo.env (Demo.reply 200 Demo.log_body_object))
         "invoices" None Demo.logged_in)
  = Return [].
Proof.
  refine (get_log_message_not_array
           (Demo.env (Demo.reply 200 Demo.log_body_object))
           "invoices" None Demo.logged_in
           {| verb := GET; url := "http://x/app/api/log/read";
              params := [("activityLabel", PStr "invoices");
                         ("date", PNone); ("access_token", PStr "T")];
              data := []; files := [] |}
           [("message", PStr "{}")] "{}" (PDict [])
           eq_refl eq_refl eq_refl eq_refl eq_refl _).
  intros items H. discriminate H.
Defined.

(** ** Uploads, new tasks and the replies that succeed *)

(** With a token, [post_artifact] on a file that opens hands [requests]
    one POST whose form holds the task id as the integer it was given, the
    name and the token, and whose only part is [body]: the file's bytes under
    the artifact's name, typed [application/octet-stream].  That request goes
    on the wire, or [requests] refuses it and [post_artifact] raises the
    refusal with the world as it was.  On a file that does not open it raises
    [OSError] and leaves the world as it was. *)
Theorem post_artifact_upload
    (E : Env) (task_id : Z) (artifact_name filepath : string) (w : World) :
  is_None (_access_token (self w)) = false ->
  (forall bytes, open_rb E filepath = Some bytes ->
     let r := {| verb := POST;
                 url := fstring (_server (self w)) ++ "/app/api/newArtifact";
                 params := [];
                 data := [("taskId", PInt task_id);
                          ("name", PStr artifact_name);
                          ("access_token", _access_token (self w))];
                 files := [("body",
                            {| part_filename := artifact_name;
                               part_body := bytes;
                               part_content_type := "application/octet-stream";
                               part_headers := [("Expires", "0")] |})] |} in
     (refuses E r = None ->
      wire (snd (post_artifact E task_id artifact_name filepath w))
      = (wire w ++ [r])%list)
     /\ (forall e, refuses E r = Some e ->
           post_artifact E task_id artifact_name filepath w = (Raise e, w)))
  /\ (open_rb E filepath = None ->
      post_artifact E task_id artifact_name filepath w = (Raise OSError, w)).
Proof.
  intros Hsome. split.
  - intros bytes Hopen r.
    destruct (post_artifact E task_id artifact_name filepath w)
      as [res w'] eqn:Hrun. cbn [snd].
    unfold post_artifact in Hrun. unfold_monad.
    rewrite Hsome in Hrun. reduce_in Hrun.
    rewrite Hopen in Hrun. reduce_in Hrun.
    fold r in Hrun. clearbody r. split.
    + intros Hacc. rewrite Hacc in Hrun.
      split_run Hrun; injection Hrun as _ <-; reflexivity.
    + intros e Hacc. rewrite Hacc in Hrun. reduce_in Hrun.
      now rewrite <- Hrun.
  - intros Hopen. unfold post_artifact. unfold_monad.
    rewrite Hsome. cbn beta iota. now rewrite Hopen.
Qed.

Lemma post_artifact_upload_witness :
  wire (snd (post_artifact (Demo.env_with_file (Demo.reply 200 "ok"))
               17 "report.pdf" "/tmp/report.pdf" Demo.logged_in))
  = ([] ++ [{| verb := POST; url := "http://x/app/api/newArtifact";
               params := [];
               data := [("taskId", PInt 17); ("name", PStr "report.pdf");
                        ("access_token", PStr "T")];
               files := [("body",
                          {| part_filename := "report.pdf";
                             part_body := Demo.pdf_bytes;
                             part_content_type := "application/octet-stream";
                             part_headers := [("Expires", "0")] |})] |}])%list
  /\ post_artifact (Demo.env_no_files (Demo.reply 200 "ok"))
       17 "report.pdf" "/tmp/report.pdf" Demo.logged_in
     = (Raise OSError, Demo.logged_in).
Proof.
  split.
  - exact (proj1 (proj1 (post_artifact_upload
                           (Demo.env_with_file (Demo.reply 200 "ok"))
                           17 "report.pdf" "/tmp/report.pdf" Demo.logged_in
                           eq_refl)
                    Demo.pdf_bytes eq_refl) eq_refl).
  - exact (proj2 (post_artifact_upload
                    (Demo.env_no_files (Demo.reply 200 "ok"))
                    17 "report.pdf" "/tmp/report.pdf" Demo.logged_in eq_refl)
             eq_refl).
Defined.

(** On a 200 reply, [create_task] decodes the task from the ['payload']
    field of the JSON object in the body, and from [None] when the object
    has no such field; a body that is not JSON raises the decoder's error
    and JSON that is not an object raises [AttributeError]. *)
Theorem create_task_200
    (E : Env) (activity_label : string) (parameters : dict) (test : bool)
    (w : World) (q : Request) :
  wire (snd (create_task E activity_label parameters test w))
  = (wire w ++ [q])%list ->
  status_code (portal E (wire w) q) = 200 ->
  (json_loads E (text (portal E (wire w) q)) = None ->
   fst (create_task E activity_label parameters test w)
   = Raise JSONDecodeError)
  /\ (forall v, json_loads E (text (portal E (wire w) q)) = Some v ->
                is_dict v = false ->
                fst (create_task E activity_label parameters test w)
                = Raise AttributeError)
  /\ (forall d, json_loads E (text (portal E (wire w) q)) = Some (PDict d) ->
                fst (create_task E activity_label parameters test w)
                = AutomationTask_from_json E
                    match lookup "payload" d with
                    | Some payload => payload
                    | None => PNone
                    end).
Proof.
  destruct (create_task E activity_label parameters test w)
    as [res w'] eqn:Hrun.
  cbn [fst snd]. intros Hwire Hstatus.
  unfold create_task in Hrun. enter_method Hrun Hwire r0.
  rewrite Hstatus, Z.eqb_refl in Hrun.
  split; [|split].
  - intros Hj. rewrite Hj in Hrun. now injection Hrun as <- _.
  - intros v Hj Hv. rewrite Hj in Hrun. reduce_in Hrun.
    destruct v; try discriminate Hv; now injection Hrun as <- _.
  - intros d Hj. rewrite Hj in Hrun. reduce_in Hrun.
    now injection Hrun as <- _.
Qed.

Lemma create_task_200_witness :
  fst (create_task (Demo.env (Demo.reply 200 Demo.no_token))
         "invoices" [("month", PInt 3)] true Demo.logged_in)
  = Return PNone.
Proof.
  exact (proj2 (proj2
           (create_task_200 (Demo.env (Demo.reply 200 Demo.no_token))
              "invoices" [("month", PInt 3)] true Demo.logged_in
              {| verb := POST; url := "http://x/app/api/task/create";
                 params := [];
                 data := [("activityLabel", PStr "invoices");
                          ("jsonParams", PStr "{}");
                          ("taskForTest", PStr "true");
                          ("access_token", PStr "T")];
                 files := [] |}
              eq_refl eq_refl))
           [("user", PStr "bob")] eq_refl).
Defined.

(** On a 200 reply, the eight operations that return a [ServerMessage]
    hand the body text as it came to [ServerMessage.from_json] and return
    what it returns, or raise what it raises; the client itself does not
    parse the body. *)
Theorem server_message_on_200
    (E : Env) (c : call) (w : World) (q : Request) :
  returns_server_message c = true ->
  wire (snd (invoke E c w)) = (wire w ++ [q])%list ->
  status_code (portal E (wire w) q) = 200 ->
  fst (invoke E c w)
  = match ServerMessage_from_json E (text (portal E (wire w) q)) with
    | Return m => Return (VServerMessage m)
    | Raise e => Raise e
    end.
Proof.
  destruct (invoke E c w) as [res w'] eqn:Hrun. cbn [fst snd].
  intros Hc Hwire Hstatus.
  destruct c; try discriminate Hc; unfold invoke in Hrun.
  all: enter_method Hrun Hwire r0.
  all: rewrite Hstatus, Z.eqb_refl in Hrun; reduce_in Hrun.
  all: destruct (ServerMessage_from_json E (text (portal E (wire w) r0)));
    reduce_in Hrun; now injection Hrun as <- _.
Qed.

Lemma server_message_on_200_witness :
  fst (invoke (Demo.env (Demo.reply 200 "anything at all"))
         (NewLog "invoices" [{| col_name := "n"; col_label := "Number" |}])
         Demo.logged_in)
  = Return (@VServerMessage (Demo.env (Demo.reply 200 "anything at all"))
              "anything at all").
Proof.
  exact (server_message_on_200 (Demo.env (Demo.reply 200 "anything at all"))
           (NewLog "invoices" [{| col_name := "n"; col_label := "Number" |}])
           Demo.logged_in
           {| verb := POST; url := "http://x/app/api/log/create";
              params := [];
              data := [("activityLabel", PStr "invoices");
                       ("columns", PStr "{}"); ("access_token", PStr "T")];
              files := [] |}
           eq_refl eq_refl eq_refl).
Defined.
